(** * alx_travel_app / listings: a shallow embedding of the models, the
    serializers, the permissions, the viewsets and the admin actions,
    with the properties of the booking validator, the booking status
    and the review aggregate.

    Conventions of the embedding.
    - A UUID primary key and a [User] are integers ([Z]).
    - A [date] is its proleptic Gregorian ordinal ([date.toordinal()]);
      comparing dates is comparing ordinals.
    - A [DecimalField] with two decimal places is an integer number of
      hundredths.
    - The value of [Avg('rating')] and of [round(..., 2)] is an exact
      rational ([Q]): binary64 is idealised. Rounding is to the nearest
      hundredth, a tie going to the even neighbour as Python's [round];
      on a mean that is a tie in exact arithmetic but not a binary64
      number (203/200), the float may fall to the other neighbour, so the
      property of the average is stated for either.
    - A raised [ValidationError] is the [Err] branch of [result].
    - The database is a record of tables, each a list of rows in insertion
      order; a function that writes returns the new database.
    - A model is the record of the columns that the serializers'
      validation, the permissions and the aggregate read or write; titles,
      locations, amenities and timestamps are left out.
    - The classes of the source plug into Django REST framework. What the
      framework does with them is written out where they are used: the
      fields a [ModelSerializer] derives from [Meta] and from the model's
      validators, [run_validation] (every field, then [validate]), the
      [create] and [update] actions of a [ModelViewSet] (permissions,
      object, object permissions, serializer, save), and
      [queryset.update]. A payload is taken after parsing: its values
      have the type of their field.
    - A [str] is a [string] of code points below 256, one per character;
      text with other characters (a surrogate among them) is outside the
      embedding.
    - The settings of the project are not in the source: the database
      backend is Django's default, sqlite3, whose range for a
      [PositiveIntegerField] ends at 2^63 - 1. *)

From Stdlib Require Import ZArith QArith Qround Qabs List String Bool.
From Stdlib Require Import Lia Lqa Permutation DecimalString.
Import ListNotations.

Local Open Scope string_scope.
Local Open Scope Z_scope.

(** ** Python values *)

Definition UUID := Z.
Definition User := Z.
Definition date := Z.

Definition days_before_year (y : Z) : Z :=
  let y1 := y - 1 in y1 * 365 + y1 / 4 - y1 / 100 + y1 / 400.

Definition is_leap (y : Z) : bool :=
  (y mod 4 =? 0) && (negb (y mod 100 =? 0) || (y mod 400 =? 0)).

Definition days_before_month (y m : Z) : Z :=
  nth (Z.to_nat m) [0; 0; 31; 59; 90; 120; 151; 181; 212; 243; 273; 304; 334] 0
  + (if (2 <? m) && is_leap y then 1 else 0).

(** [date(y, m, d).toordinal()] *)
Definition ymd (y m d : Z) : date :=
  days_before_year y + days_before_month y m + d.

(** [str(n)] for an [int] *)
Definition str (n : Z) : string := NilZero.string_of_int (Z.to_int n).

(** [c.isspace()] for a code point below 256 *)
Definition isspace (c : Ascii.ascii) : bool :=
  let n := Z.of_nat (Ascii.nat_of_ascii c) in
  ((9 <=? n) && (n <=? 13)) || ((28 <=? n) && (n <=? 32))
  || (n =? 133) || (n =? 160).

(** [s.lstrip()], [s.rstrip()] and [s.strip()] *)
Fixpoint lstrip (s : string) : string :=
  match s with
  | EmptyString => EmptyString
  | String c s' => if isspace c then lstrip s' else s
  end.

Fixpoint rstrip (s : string) : string :=
  match s with
  | EmptyString => EmptyString
  | String c s' =>
      match rstrip s' with
      | EmptyString => if isspace c then EmptyString else String c EmptyString
      | r => String c r
      end
  end.

Definition strip (s : string) : string := rstrip (lstrip s).

(** ['\x00' in s] *)
Fixpoint has_null (s : string) : bool :=
  match s with
  | EmptyString => false
  | String c s' => Ascii.eqb c Ascii.zero || has_null s'
  end.

(** [x in xs] for a list of strings *)
Definition mem (x : string) (xs : list string) : bool :=
  existsb (String.eqb x) xs.

(** Exceptions: [Ok] is a normal return, [Err] a raise. *)
Inductive result (E A : Type) : Type :=
| Ok (a : A)
| Err (e : E).
Arguments Ok {E A} a.
Arguments Err {E A} e.

Definition bind {E A B} (r : result E A) (k : A -> result E B) : result E B :=
  match r with
  | Ok a => k a
  | Err e => Err e
  end.

Notation "x <- r ;; k" := (bind r (fun x => k))
  (at level 61, r at next level, right associativity).
Notation "r ;; k" := (bind r (fun _ => k))
  (at level 61, right associativity).

(** [round(x, 2)]: the nearest multiple of 1/100, ties to even. *)
Definition round_half_even (x : Q) : Z :=
  let f := Qfloor x in
  match Qcompare (x - inject_Z f)%Q (1 # 2)%Q with
  | Lt => f
  | Gt => f + 1
  | Eq => if Z.even f then f else f + 1
  end.

Definition round2 (x : Q) : Q :=
  (inject_Z (round_half_even (x * 100)) / 100)%Q.

(** ** listings/models.py *)

Module Models.

Record Listing := mkListing {
  listing_id : UUID;
  host : User;
  price_per_night : Z;
  max_guests : Z;
  listing_is_active : bool
}.

Record Review := mkReview {
  review_id : UUID;
  review_listing : UUID;
  reviewer : User;
  rating : Z;
  comment : string;
  review_is_active : bool
}.

Inductive BookingStatus := PENDING | CONFIRMED | CANCELLED | COMPLETED.

(** The stored value of each choice. *)
Definition value (s : BookingStatus) : string :=
  match s with
  | PENDING => "pending"
  | CONFIRMED => "confirmed"
  | CANCELLED => "cancelled"
  | COMPLETED => "completed"
  end.

(** [BookingStatus.choices], in declaration order. *)
Definition choices : list BookingStatus :=
  [PENDING; CONFIRMED; CANCELLED; COMPLETED].

Record Booking := mkBooking {
  booking_id : UUID;
  booking_listing : UUID;
  guest : User;
  check_in_date : date;
  check_out_date : date;
  num_guests : Z;
  total_price : Z;
  status : BookingStatus;
  special_requests : string
}.

(** [default=BookingStatus.PENDING] of [Booking.status] *)
Definition status_default : BookingStatus := PENDING.

Record DB := mkDB {
  listings : list Listing;
  reviews : list Review;
  bookings : list Booking
}.

(** [Listing.objects.get(id=pk)] over [Listing.objects.all()] *)
Definition get_listing (db : DB) (pk : UUID) : option Listing :=
  find (fun l => listing_id l =? pk) (listings db).

(** [self.reviews]: the reverse side of [Review.listing]. *)
Definition listing_reviews (db : DB) (self : Listing) : list Review :=
  filter (fun r => review_listing r =? listing_id self) (reviews db).

(** [.filter(is_active=True)] on reviews *)
Definition filter_is_active (rs : list Review) : list Review :=
  filter review_is_active rs.

Definition sum (xs : list Z) : Z := fold_right Z.add 0 xs.

(** [.aggregate(avg_rating=models.Avg('rating'))]: NULL ([None]) over no
    row, the mean of the column otherwise. *)
Definition Avg (xs : list Z) : option Q :=
  match xs with
  | [] => None
  | _ :: _ => Some (inject_Z (sum xs) / inject_Z (Z.of_nat (List.length xs)))%Q
  end.

(** [Listing.average_rating]; a number is true when it is not zero. *)
Definition average_rating (db : DB) (self : Listing) : Q :=
  let ratings := Avg (map rating (filter_is_active (listing_reviews db self))) in
  match ratings with
  | Some avg_rating => if Qeq_bool avg_rating 0 then 0%Q else round2 avg_rating
  | None => 0%Q
  end.

(** [Listing.review_count] *)
Definition review_count (db : DB) (self : Listing) : Z :=
  Z.of_nat (List.length (filter_is_active (listing_reviews db self))).

(** [Booking.clean]; [listing] is the row [self.listing] resolves to. *)
Definition clean (listing : Listing) (self : Booking) : result string unit :=
  (if check_out_date self <=? check_in_date self
   then Err "Check-out date must be after check-in date."
   else Ok tt) ;;
  (if max_guests listing <? num_guests self
   then Err ("Number of guests exceeds maximum capacity ("
             ++ str (max_guests listing) ++ ").")
   else Ok tt).

(** [Booking.duration_days] *)
Definition duration_days (self : Booking) : Z :=
  check_out_date self - check_in_date self.

End Models.

(** ** listings/serializers.py *)

Module Serializers.
Import Models.

(** What a [ValidationError] carries: the message of the serializer's own
    checks, or the error code of a field of the framework. *)
Inductive ValidationError :=
| CheckOutNotAfterCheckIn
| GuestsExceedCapacity (num_guests max_guests : Z)
| NumGuestsNotPositive
| TotalPriceNotPositive
| RatingOutOfRange
| required
| does_not_exist (pk : UUID)
| invalid_choice (input : string)
| min_value (limit : Z)
| max_value (limit : Z)
| max_digits (limit : Z)
| null_characters_not_allowed.

(** The text of an error; the framework's own texts are given without the
    value they quote. *)
Definition message (e : ValidationError) : string :=
  match e with
  | CheckOutNotAfterCheckIn => "Check-out date must be after check-in date."
  | GuestsExceedCapacity n m =>
      "Number of guests (" ++ str n ++ ") exceeds maximum capacity ("
      ++ str m ++ ")."
  | NumGuestsNotPositive => "Number of guests must be greater than 0."
  | TotalPriceNotPositive => "Total price must be greater than 0."
  | RatingOutOfRange => "Rating must be between 1 and 5."
  | required => "This field is required."
  | does_not_exist pk => "Invalid pk - object does not exist."
  | invalid_choice s => s ++ " is not a valid choice."
  | min_value l => "Ensure this value is greater than or equal to " ++ str l ++ "."
  | max_value l => "Ensure this value is less than or equal to " ++ str l ++ "."
  | max_digits l =>
      "Ensure that there are no more than " ++ str l ++ " digits in total."
  | null_characters_not_allowed => "Null characters are not allowed."
  end.

(** The errors of a rejected payload: field name (or [non_field_errors])
    and error, in field order. *)
Definition Errors := list (string * ValidationError).

Definition non_field_errors : string := "non_field_errors".

(** [fields] minus [read_only_fields] minus the fields declared with
    [read_only=True] (or as a [ReadOnlyField]). *)
Definition writable (fields read_only_fields declared_read_only : list string)
    (name : string) : bool :=
  mem name fields && negb (mem name read_only_fields)
  && negb (mem name declared_read_only).

(** One field of [to_internal_value]: a read-only field is skipped; an
    absent value is an error when the field is required and the update is
    not partial, and is left out otherwise; a present value goes through
    the field's own validation, then [validate_<field>]. *)
Definition run_field {A B} (is_writable partial is_required : bool)
    (raw : option A) (run_validation : A -> result ValidationError B)
    : result ValidationError (option B) :=
  if is_writable then
    match raw with
    | None => if is_required && negb partial then Err required else Ok None
    | Some v => x <- run_validation v ;; Ok (Some x)
    end
  else Ok None.

Definition error_of {A} (name : string) (r : result ValidationError A) : Errors :=
  match r with
  | Ok _ => []
  | Err e => [(name, e)]
  end.

Definition value_of {A} (r : result ValidationError (option A)) : option A :=
  match r with
  | Ok v => v
  | Err _ => None
  end.

(** A [PrimaryKeyRelatedField] over [Listing.objects.all()]. *)
Definition listing_field (db : DB) (pk : UUID) : result ValidationError Listing :=
  match get_listing db pk with
  | Some l => Ok l
  | None => Err (does_not_exist pk)
  end.

(** [MinValueValidator(limit)] and [MaxValueValidator(limit)] *)
Definition MinValueValidator (limit v : Z) : result ValidationError Z :=
  if v <? limit then Err (min_value limit) else Ok v.

Definition MaxValueValidator (limit v : Z) : result ValidationError Z :=
  if v >? limit then Err (max_value limit) else Ok v.

(** The [max_value] that the serializer field of a [PositiveIntegerField]
    takes from the database backend: the end of sqlite3's
    [integer_field_range]. *)
Definition integer_max_value : Z := 9223372036854775807.

(** The [CharField] of a [TextField(blank=True)] ([allow_blank=True],
    [trim_whitespace=True]): blank text is returned as the empty string;
    other text is stripped, then refused when it holds a null character.
    The validator against surrogates has nothing to refuse in text of code
    points below 256. *)
Definition CharField (data : string) : result ValidationError string :=
  if String.eqb data "" || String.eqb (strip data) "" then Ok ""
  else
    let value := strip data in
    if has_null value then Err null_characters_not_allowed else Ok value.

(** [max_digits=10, decimal_places=2] on a value in hundredths. *)
Definition max_digits_10 (v : Z) : result ValidationError Z :=
  if Z.abs v >=? 10 ^ 10 then Err (max_digits 10) else Ok v.

(** *** ReviewSerializer *)
Module ReviewSerializer.

Definition fields : list string :=
  ["id"; "listing"; "listing_title"; "reviewer"; "rating";
   "comment"; "created_at"; "updated_at"].
Definition read_only_fields : list string :=
  ["id"; "reviewer"; "created_at"; "updated_at"].
Definition declared_read_only : list string :=
  ["reviewer"; "listing_title"].

Definition validate_rating (value : Z) : result ValidationError Z :=
  if (value <? 1) || (value >? 5) then Err RatingOutOfRange else Ok value.

(** The payload of a request, by field. *)
Record Input := mkInput {
  in_listing : option UUID;
  in_reviewer : option User;
  in_rating : option Z;
  in_comment : option string;
  in_is_active : option bool
}.

(** [validated_data] *)
Record Data := mkData {
  d_listing : option Listing;
  d_reviewer : option User;
  d_rating : option Z;
  d_comment : option string;
  d_is_active : option bool
}.

Definition w := writable fields read_only_fields declared_read_only.

Definition to_internal_value (db : DB) (partial : bool) (inp : Input)
    : result Errors Data :=
  let listing := run_field (w "listing") partial true (in_listing inp)
                   (listing_field db) in
  let reviewer := run_field (w "reviewer") partial true (in_reviewer inp)
                    (@Ok ValidationError User) in
  let rating := run_field (w "rating") partial true (in_rating inp)
                  (fun v => v <- MinValueValidator 1 v ;;
                            v <- MaxValueValidator 5 v ;;
                            validate_rating v) in
  let comment := run_field (w "comment") partial false (in_comment inp)
                   CharField in
  let is_active := run_field (w "is_active") partial false (in_is_active inp)
                     (@Ok ValidationError bool) in
  match (error_of "listing" listing ++ error_of "reviewer" reviewer
         ++ error_of "rating" rating ++ error_of "comment" comment
         ++ error_of "is_active" is_active)%list with
  | [] => Ok {| d_listing := value_of listing;
                d_reviewer := value_of reviewer;
                d_rating := value_of rating;
                d_comment := value_of comment;
                d_is_active := value_of is_active |}
  | errors => Err errors
  end.

(** No [validate] of its own: the default returns the data. *)
Definition run_validation (db : DB) (partial : bool) (inp : Input)
    : result Errors Data :=
  to_internal_value db partial inp.

(** [ModelSerializer.update]: each validated field is set on the
    instance. *)
Definition update (instance : Review) (data : Data) : Review :=
  {| review_id := review_id instance;
     review_listing := match d_listing data with
                       | Some l => listing_id l
                       | None => review_listing instance
                       end;
     reviewer := match d_reviewer data with
                 | Some u => u
                 | None => reviewer instance
                 end;
     rating := match d_rating data with
               | Some v => v
               | None => rating instance
               end;
     comment := match d_comment data with
                | Some c => c
                | None => comment instance
                end;
     review_is_active := match d_is_active data with
                         | Some a => a
                         | None => review_is_active instance
                         end |}.

(** [serializer.save(reviewer=user)] on a new object: [reviewer] is added
    to the validated data and [Review.objects.create] fills what is left
    out with the model's defaults; [pk] is the [uuid4] drawn for [id]. *)
Definition create (pk : UUID) (user : User) (data : Data) : option Review :=
  match d_listing data, d_rating data with
  | Some l, Some v =>
      Some {| review_id := pk;
              review_listing := listing_id l;
              reviewer := user;
              rating := v;
              comment := match d_comment data with
                         | Some c => c
                         | None => ""
                         end;
              review_is_active := match d_is_active data with
                                  | Some a => a
                                  | None => true
                                  end |}
  | _, _ => None
  end.

End ReviewSerializer.

(** *** BookingSerializer *)
Module BookingSerializer.

Definition fields : list string :=
  ["id"; "listing"; "listing_title"; "listing_location"; "host_name";
   "guest"; "check_in_date"; "check_out_date"; "num_guests";
   "total_price"; "status"; "special_requests"; "duration_days";
   "created_at"; "updated_at"].
Definition read_only_fields : list string :=
  ["id"; "guest"; "created_at"; "updated_at"].
Definition declared_read_only : list string :=
  ["guest"; "listing_title"; "listing_location"; "host_name";
   "duration_days"].

(** The payload of a request, by field. *)
Record Input := mkInput {
  in_listing : option UUID;
  in_guest : option User;
  in_check_in_date : option date;
  in_check_out_date : option date;
  in_num_guests : option Z;
  in_total_price : option Z;
  in_status : option string;
  in_special_requests : option string
}.

(** [validated_data]; [data.get(name)] is the projection. *)
Record Data := mkData {
  d_listing : option Listing;
  d_guest : option User;
  d_check_in_date : option date;
  d_check_out_date : option date;
  d_num_guests : option Z;
  d_total_price : option Z;
  d_status : option BookingStatus;
  d_special_requests : option string
}.

Definition validate (data : Data) : result ValidationError Data :=
  let check_in_date := d_check_in_date data in
  let check_out_date := d_check_out_date data in
  let num_guests := d_num_guests data in
  let listing := d_listing data in
  (* Validate dates *)
  match check_in_date, check_out_date with
  | Some check_in_date, Some check_out_date =>
      if check_in_date >=? check_out_date
      then Err CheckOutNotAfterCheckIn else Ok tt
  | _, _ => Ok tt
  end ;;
  (* Validate guest capacity; the number 0 is false *)
  match listing, num_guests with
  | Some listing, Some num_guests =>
      if negb (num_guests =? 0) then
        if num_guests >? max_guests listing
        then Err (GuestsExceedCapacity num_guests (max_guests listing))
        else Ok tt
      else Ok tt
  | _, _ => Ok tt
  end ;;
  Ok data.

Definition validate_num_guests (value : Z) : result ValidationError Z :=
  if value <=? 0 then Err NumGuestsNotPositive else Ok value.

Definition validate_total_price (value : Z) : result ValidationError Z :=
  if value <=? 0 then Err TotalPriceNotPositive else Ok value.

(** The [ChoiceField] over [BookingStatus.choices]. *)
Definition status_field (input : string) : result ValidationError BookingStatus :=
  match find (fun c => String.eqb (value c) input) choices with
  | Some c => Ok c
  | None => Err (invalid_choice input)
  end.

Definition w := writable fields read_only_fields declared_read_only.

Definition to_internal_value (db : DB) (partial : bool) (inp : Input)
    : result Errors Data :=
  let listing := run_field (w "listing") partial true (in_listing inp)
                   (listing_field db) in
  let guest := run_field (w "guest") partial true (in_guest inp)
                 (@Ok ValidationError User) in
  let check_in_date := run_field (w "check_in_date") partial true
                         (in_check_in_date inp) (@Ok ValidationError date) in
  let check_out_date := run_field (w "check_out_date") partial true
                          (in_check_out_date inp) (@Ok ValidationError date) in
  let num_guests := run_field (w "num_guests") partial true
                      (in_num_guests inp)
                      (fun v => v <- MaxValueValidator integer_max_value v ;;
                                v <- MinValueValidator 1 v ;;
                                validate_num_guests v) in
  let total_price := run_field (w "total_price") partial true
                       (in_total_price inp)
                       (fun v => v <- max_digits_10 v ;;
                                 v <- MinValueValidator 0 v ;;
                                 validate_total_price v) in
  let status := run_field (w "status") partial false (in_status inp)
                  status_field in
  let special_requests := run_field (w "special_requests") partial false
                            (in_special_requests inp) CharField in
  match (error_of "listing" listing ++ error_of "guest" guest
         ++ error_of "check_in_date" check_in_date
         ++ error_of "check_out_date" check_out_date
         ++ error_of "num_guests" num_guests
         ++ error_of "total_price" total_price
         ++ error_of "status" status
         ++ error_of "special_requests" special_requests)%list with
  | [] => Ok {| d_listing := value_of listing;
                d_guest := value_of guest;
                d_check_in_date := value_of check_in_date;
                d_check_out_date := value_of check_out_date;
                d_num_guests := value_of num_guests;
                d_total_price := value_of total_price;
                d_status := value_of status;
                d_special_requests := value_of special_requests |}
  | errors => Err errors
  end.

(** [Serializer.run_validation]: the fields first; [validate] only once
    no field has an error, its error filed under [non_field_errors]. *)
Definition run_validation (db : DB) (partial : bool) (inp : Input)
    : result Errors Data :=
  value <- to_internal_value db partial inp ;;
  match validate value with
  | Ok value => Ok value
  | Err e => Err [(non_field_errors, e)]
  end.

(** [serializer.save(guest=user)] on a new object: [guest] is added to
    the validated data and [Booking.objects.create] fills what is left
    out with the model's defaults; [pk] is the [uuid4] drawn for [id].
    A column without default that is left out is refused by the
    database ([None]). *)
Definition create (pk : UUID) (user : User) (data : Data) : option Booking :=
  match d_listing data, d_check_in_date data, d_check_out_date data,
        d_num_guests data, d_total_price data with
  | Some l, Some ci, Some co, Some n, Some p =>
      Some {| booking_id := pk;
              booking_listing := listing_id l;
              guest := user;
              check_in_date := ci;
              check_out_date := co;
              num_guests := n;
              total_price := p;
              status := match d_status data with
                        | Some s => s
                        | None => status_default
                        end;
              special_requests := match d_special_requests data with
                                  | Some s => s
                                  | None => ""
                                  end |}
  | _, _, _, _, _ => None
  end.

(** [ModelSerializer.update]: each validated field is set on the
    instance. *)
Definition update (instance : Booking) (data : Data) : Booking :=
  {| booking_id := booking_id instance;
     booking_listing := match d_listing data with
                        | Some l => listing_id l
                        | None => booking_listing instance
                        end;
     guest := match d_guest data with
              | Some u => u
              | None => guest instance
              end;
     check_in_date := match d_check_in_date data with
                      | Some v => v
                      | None => check_in_date instance
                      end;
     check_out_date := match d_check_out_date data with
                       | Some v => v
                       | None => check_out_date instance
                       end;
     num_guests := match d_num_guests data with
                   | Some v => v
                   | None => num_guests instance
                   end;
     total_price := match d_total_price data with
                    | Some v => v
                    | None => total_price instance
                    end;
     status := match d_status data with
               | Some v => v
               | None => status instance
               end;
     special_requests := match d_special_requests data with
                         | Some v => v
                         | None => special_requests instance
                         end |}.

End BookingSerializer.

End Serializers.

(** ** listings/permissions.py *)

Module Permissions.
Import Models.

Inductive Method := GET | HEAD | OPTIONS | POST | PUT | PATCH | DELETE.

Definition Method_eqb (a b : Method) : bool :=
  match a, b with
  | GET, GET | HEAD, HEAD | OPTIONS, OPTIONS | POST, POST
  | PUT, PUT | PATCH, PATCH | DELETE, DELETE => true
  | _, _ => false
  end.

(** [permissions.SAFE_METHODS] *)
Definition SAFE_METHODS : list Method := [GET; HEAD; OPTIONS].

Definition is_safe (m : Method) : bool := existsb (Method_eqb m) SAFE_METHODS.

(** [request.user] is [None] for the anonymous user. *)
Record Request := mkRequest {
  method : Method;
  user : option User
}.

(** [u == request.user] *)
Definition is_user (u : User) (request : Request) : bool :=
  match user request with
  | Some v => u =? v
  | None => false
  end.

(** [request.user.is_authenticated] *)
Definition is_authenticated (request : Request) : bool :=
  match user request with
  | Some _ => true
  | None => false
  end.

(** The objects the permissions are asked about. *)
Inductive Obj :=
| ListingObj (l : Listing)
| ReviewObj (r : Review)
| BookingObj (b : Booking).

(** [hasattr(obj, 'host')] with [obj.host] *)
Definition attr_host (obj : Obj) : option User :=
  match obj with
  | ListingObj l => Some (host l)
  | ReviewObj _ | BookingObj _ => None
  end.

(** [hasattr(obj, 'reviewer')] with [obj.reviewer] *)
Definition attr_reviewer (obj : Obj) : option User :=
  match obj with
  | ReviewObj r => Some (reviewer r)
  | ListingObj _ | BookingObj _ => None
  end.

(** rest_framework's [IsAuthenticated] and [IsAuthenticatedOrReadOnly] *)
Module IsAuthenticated.
Definition has_permission (request : Request) : bool :=
  is_authenticated request.
End IsAuthenticated.

Module IsAuthenticatedOrReadOnly.
Definition has_permission (request : Request) : bool :=
  is_safe (method request) || is_authenticated request.
End IsAuthenticatedOrReadOnly.

Module IsOwnerOrReadOnly.
Definition has_object_permission (request : Request) (obj : Obj) : bool :=
  if is_safe (method request) then true
  else match attr_host obj with
       | Some h => is_user h request
       | None =>
           match attr_reviewer obj with
           | Some r => is_user r request
           | None => false
           end
       end.
End IsOwnerOrReadOnly.

Module IsBookingGuestOrHost.
Definition has_permission (request : Request) : bool :=
  is_authenticated request.

(** [listing] is the row [obj.listing] resolves to. *)
Definition has_object_permission (request : Request) (obj : Booking)
    (listing : Listing) : bool :=
  if is_user (guest obj) request then true
  else if is_user (host listing) request then is_safe (method request)
  else false.
End IsBookingGuestOrHost.

Module IsHostOrReadOnly.
Definition has_object_permission (request : Request) (obj : Listing) : bool :=
  if is_safe (method request) then true
  else is_user (host obj) request.
End IsHostOrReadOnly.

End Permissions.

(** ** listings/views.py *)

Module Views.
Import Models Serializers Permissions.

Inductive Response (A : Type) : Type :=
| HTTP_200_OK (data : A)
| HTTP_201_CREATED (data : A)
| HTTP_400_BAD_REQUEST (errors : Errors)
| HTTP_403_FORBIDDEN
| HTTP_404_NOT_FOUND
| IntegrityError.
Arguments HTTP_200_OK {A} data.
Arguments HTTP_201_CREATED {A} data.
Arguments HTTP_400_BAD_REQUEST {A} errors.
Arguments HTTP_403_FORBIDDEN {A}.
Arguments HTTP_404_NOT_FOUND {A}.
Arguments IntegrityError {A}.

(** The row with the primary key of [r'] is replaced by [r']. *)
Definition save_review (db : DB) (r' : Review) : DB :=
  {| listings := listings db;
     reviews := map (fun r => if review_id r =? review_id r' then r' else r)
                  (reviews db);
     bookings := bookings db |}.

Definition save_booking (db : DB) (b' : Booking) : DB :=
  {| listings := listings db;
     reviews := reviews db;
     bookings := map (fun b => if booking_id b =? booking_id b' then b' else b)
                   (bookings db) |}.

Definition insert_booking (db : DB) (b : Booking) : DB :=
  {| listings := listings db;
     reviews := reviews db;
     bookings := (bookings db ++ [b])%list |}.

Module ReviewViewSet.

(** [queryset = Review.objects.filter(is_active=True)] *)
Definition queryset (db : DB) : list Review := filter_is_active (reviews db).

(** [unique_together = ['listing', 'reviewer']], as the database checks
    it when [r'] is saved. *)
Definition unique_together (db : DB) (r' : Review) : bool :=
  forallb (fun r => (review_id r =? review_id r')
                    || negb ((review_listing r =? review_listing r')
                             && (reviewer r =? reviewer r')))
    (reviews db).

(** [update] (PUT) and [partial_update] (PATCH) of the [ModelViewSet]:
    the view's permissions, the object out of [queryset], the object
    permissions, the serializer, the save. *)
Definition update (db : DB) (partial : bool) (usr : option User) (pk : UUID)
    (inp : ReviewSerializer.Input) : Response Review * DB :=
  let request := {| method := if partial then PATCH else PUT; user := usr |} in
  if negb (IsAuthenticatedOrReadOnly.has_permission request)
  then (HTTP_403_FORBIDDEN, db)
  else
    match find (fun r => review_id r =? pk) (queryset db) with
    | None => (HTTP_404_NOT_FOUND, db)
    | Some instance =>
        if negb (IsOwnerOrReadOnly.has_object_permission request
                   (ReviewObj instance))
        then (HTTP_403_FORBIDDEN, db)
        else
          match ReviewSerializer.run_validation db partial inp with
          | Err errors => (HTTP_400_BAD_REQUEST errors, db)
          | Ok data =>
              let instance' := ReviewSerializer.update instance data in
              if unique_together db instance'
              then (HTTP_200_OK instance', save_review db instance')
              else (IntegrityError, db)
          end
    end.

(** [perform_create]: [serializer.save(reviewer=self.request.user)]. *)
Definition perform_create (pk : UUID) (usr : User)
    (data : ReviewSerializer.Data) : option Review :=
  ReviewSerializer.create pk usr data.

Definition insert_review (db : DB) (r : Review) : DB :=
  {| listings := listings db;
     reviews := (reviews db ++ [r])%list;
     bookings := bookings db |}.

(** [create] (POST) of the [ModelViewSet]; [pk] is the [uuid4] drawn for
    the new row. The database refuses a key in use and a second review of
    the same listing by the same reviewer. *)
Definition create (db : DB) (usr : option User) (pk : UUID)
    (inp : ReviewSerializer.Input) : Response Review * DB :=
  let request := {| method := POST; user := usr |} in
  if negb (IsAuthenticatedOrReadOnly.has_permission request)
  then (HTTP_403_FORBIDDEN, db)
  else
    match ReviewSerializer.run_validation db false inp with
    | Err errors => (HTTP_400_BAD_REQUEST errors, db)
    | Ok data =>
        match usr with
        | None => (HTTP_403_FORBIDDEN, db)
        | Some u =>
            match perform_create pk u data with
            | None => (IntegrityError, db)
            | Some r =>
                if existsb (fun r' => review_id r' =? pk) (reviews db)
                   || negb (unique_together db r)
                then (IntegrityError, db)
                else (HTTP_201_CREATED r, insert_review db r)
            end
        end
    end.

End ReviewViewSet.

Module BookingViewSet.

(** [get_queryset]: the user's own bookings and the bookings of the
    user's listings. *)
Definition get_queryset (db : DB) (request : Request) : list Booking :=
  filter (fun b => is_user (guest b) request
                   || match get_listing db (booking_listing b) with
                      | Some l => is_user (host l) request
                      | None => false
                      end)
    (bookings db).

(** [perform_create]: [serializer.save(guest=self.request.user)]. *)
Definition perform_create (pk : UUID) (usr : User)
    (data : BookingSerializer.Data) : option Booking :=
  BookingSerializer.create pk usr data.

(** [create] (POST) of the [ModelViewSet]; [pk] is the [uuid4] drawn for
    the new row, refused by the database when it is already a key. *)
Definition create (db : DB) (usr : option User) (pk : UUID)
    (inp : BookingSerializer.Input) : Response Booking * DB :=
  let request := {| method := POST; user := usr |} in
  if negb (IsAuthenticated.has_permission request
           && IsBookingGuestOrHost.has_permission request)
  then (HTTP_403_FORBIDDEN, db)
  else
    match BookingSerializer.run_validation db false inp with
    | Err errors => (HTTP_400_BAD_REQUEST errors, db)
    | Ok data =>
        match usr with
        | None => (HTTP_403_FORBIDDEN, db)
        | Some u =>
            match perform_create pk u data with
            | None => (IntegrityError, db)
            | Some b =>
                if existsb (fun b' => booking_id b' =? pk) (bookings db)
                then (IntegrityError, db)
                else (HTTP_201_CREATED b, insert_booking db b)
            end
        end
    end.

(** [update] (PUT) and [partial_update] (PATCH) of the [ModelViewSet]. *)
Definition update (db : DB) (partial : bool) (usr : option User) (pk : UUID)
    (inp : BookingSerializer.Input) : Response Booking * DB :=
  let request := {| method := if partial then PATCH else PUT; user := usr |} in
  if negb (IsAuthenticated.has_permission request
           && IsBookingGuestOrHost.has_permission request)
  then (HTTP_403_FORBIDDEN, db)
  else
    match find (fun b => booking_id b =? pk) (get_queryset db request) with
    | None => (HTTP_404_NOT_FOUND, db)
    | Some instance =>
        let allowed :=
          match get_listing db (booking_listing instance) with
          | Some l =>
              IsBookingGuestOrHost.has_object_permission request instance l
          | None => false
          end in
        if negb allowed then (HTTP_403_FORBIDDEN, db)
        else
          match BookingSerializer.run_validation db partial inp with
          | Err errors => (HTTP_400_BAD_REQUEST errors, db)
          | Ok data =>
              let instance' := BookingSerializer.update instance data in
              (HTTP_200_OK instance', save_booking db instance')
          end
    end.

End BookingViewSet.

(** [Listing.objects.get(id=listing_id, is_active=True)] *)
Definition get_active_listing (db : DB) (listing_id' : UUID) : option Listing :=
  find (fun l => (listing_id l =? listing_id') && listing_is_active l)
    (listings db).

(** [listing.bookings]: the reverse side of [Booking.listing]. *)
Definition listing_bookings (db : DB) (l : Listing) : list Booking :=
  filter (fun b => booking_listing b =? listing_id l) (bookings db).

(** The rows of a response are given in table order; [Meta.ordering] is
    not modelled. *)
Module ListingReviewsView.

(** [permission_classes = [IsAuthenticatedOrReadOnly]], then [get]. *)
Definition get (db : DB) (usr : option User) (listing_id' : UUID)
    : Response (list Review) :=
  let request := {| method := GET; user := usr |} in
  if negb (IsAuthenticatedOrReadOnly.has_permission request)
  then HTTP_403_FORBIDDEN
  else
    match get_active_listing db listing_id' with
    | Some listing =>
        let reviews := filter_is_active (listing_reviews db listing) in
        HTTP_200_OK reviews
    | None => HTTP_404_NOT_FOUND
    end.

End ListingReviewsView.

Module ListingBookingsView.

(** [permission_classes = [IsAuthenticated]], then [get]. *)
Definition get (db : DB) (usr : option User) (listing_id' : UUID)
    : Response (list Booking) :=
  let request := {| method := GET; user := usr |} in
  if negb (IsAuthenticated.has_permission request)
  then HTTP_403_FORBIDDEN
  else
    match get_active_listing db listing_id' with
    | Some listing =>
        if negb (is_user (host listing) request)
        then HTTP_403_FORBIDDEN
        else HTTP_200_OK (listing_bookings db listing)
    | None => HTTP_404_NOT_FOUND
    end.

End ListingBookingsView.

End Views.

(** ** listings/admin.py *)

Module Admin.
Import Models.

Definition set_status (s : BookingStatus) (b : Booking) : Booking :=
  {| booking_id := booking_id b;
     booking_listing := booking_listing b;
     guest := guest b;
     check_in_date := check_in_date b;
     check_out_date := check_out_date b;
     num_guests := num_guests b;
     total_price := total_price b;
     status := s;
     special_requests := special_requests b |}.

(** [queryset.update(status=s)]: every row of the queryset is written in
    one statement; the result is the number of rows matched. *)
Definition update (db : DB) (queryset : Booking -> bool) (s : BookingStatus)
    : Z * DB :=
  (Z.of_nat (List.length (filter queryset (bookings db))),
   {| listings := listings db;
      reviews := reviews db;
      bookings := map (fun b => if queryset b then set_status s b else b)
                    (bookings db) |}).

Module BookingAdmin.

(** The message given to [message_user], and the database after. *)
Definition mark_as_confirmed (db : DB) (queryset : Booking -> bool)
    : string * DB :=
  let (updated, db') := update db queryset CONFIRMED in
  (str updated ++ " booking(s) were successfully marked as confirmed.", db').

Definition mark_as_cancelled (db : DB) (queryset : Booking -> bool)
    : string * DB :=
  let (updated, db') := update db queryset CANCELLED in
  (str updated ++ " booking(s) were successfully marked as cancelled.", db').

End BookingAdmin.

End Admin.

(** ** The vocabulary of the specification

    Definitions that follow the words of the specification, to state the
    properties of the code against. *)

Module Spec.
Import Models.

(** 4.1: the half-open ranges [[checkIn, checkOut)] and
    [[b.checkIn, b.checkOut)] overlap. *)
Definition overlaps (checkIn checkOut : date) (b : Booking) : bool :=
  (checkIn <? check_out_date b) && (check_in_date b <? checkOut).

(** 4.1: the existing booking's status is Pending or Confirmed. *)
Definition blocks (b : Booking) : bool :=
  match status b with
  | PENDING | CONFIRMED => true
  | CANCELLED | COMPLETED => false
  end.

(** 4.1: a candidate range conflicts with an existing booking of the same
    listing. *)
Definition conflicts (listing : UUID) (checkIn checkOut : date) (b : Booking)
    : bool :=
  (booking_listing b =? listing) && overlaps checkIn checkOut b && blocks b.

(** 4.4: the table of transitions, From and To. *)
Definition valid_transition (from to : BookingStatus) : bool :=
  match from, to with
  | PENDING, CONFIRMED
  | PENDING, CANCELLED
  | CONFIRMED, CANCELLED
  | CONFIRMED, COMPLETED => true
  | _, _ => false
  end.

(** 7: the error kinds a booking request is rejected with. *)
Inductive ErrorKind :=
| ListingNotFound
| ListingInactive
| InvalidDateRange
| PastDateRange
| GuestCapacityExceeded
| DateRangeUnavailable
| InvalidPrice.

Definition ErrorKind_eqb (a b : ErrorKind) : bool :=
  match a, b with
  | ListingNotFound, ListingNotFound
  | ListingInactive, ListingInactive
  | InvalidDateRange, InvalidDateRange
  | PastDateRange, PastDateRange
  | GuestCapacityExceeded, GuestCapacityExceeded
  | DateRangeUnavailable, DateRangeUnavailable
  | InvalidPrice, InvalidPrice => true
  | _, _ => false
  end.

(** 4.2: the rule an error of the booking serializer stands for: the
    listing's existence (1), the date range (2), the guest count (4),
    the price (6). *)
Definition kind (e : string * Serializers.ValidationError) : option ErrorKind :=
  match e with
  | (_, Serializers.CheckOutNotAfterCheckIn) => Some InvalidDateRange
  | (_, Serializers.GuestsExceedCapacity _ _) => Some GuestCapacityExceeded
  | (_, Serializers.NumGuestsNotPositive) => Some GuestCapacityExceeded
  | (_, Serializers.TotalPriceNotPositive) => Some InvalidPrice
  | (_, Serializers.does_not_exist _) => Some ListingNotFound
  | (f, _) =>
      if String.eqb f "num_guests" then Some GuestCapacityExceeded
      else if String.eqb f "total_price" then Some InvalidPrice
      else None
  end.

(** The rejection [errors] carries an error of kind [k]. *)
Definition rejected_with (k : ErrorKind) (errors : Serializers.Errors) : bool :=
  existsb (fun e => match kind e with
                    | Some k' => ErrorKind_eqb k k'
                    | None => false
                    end) errors.

(** 4.3: the reviews of the listing with active = true. *)
Definition active_reviews (db : DB) (l : Listing) : list Review :=
  filter (fun r => (review_listing r =? listing_id l) && review_is_active r)
    (reviews db).

(** 4.3: the arithmetic mean. *)
Definition mean (xs : list Z) : Q :=
  (inject_Z (fold_right Z.add 0%Z xs) / inject_Z (Z.of_nat (List.length xs)))%Q.

(** 4.3: [a] is [x] rounded to 2 decimal places: a whole number of
    hundredths, none nearer to [x]. *)
Definition rounded_2dp (x a : Q) : Prop :=
  (exists k : Z, a == inject_Z k / 100)%Q /\ (Qabs (a - x) <= 1 # 200)%Q.

End Spec.

(** ** The requests the properties are stated over *)

Module Inputs.
Import Models Serializers Serializers.BookingSerializer.

(** The payload of a POST that gives every required field. *)
Definition payload (listing : UUID) (check_in check_out : date)
    (guests price : Z) (st : option BookingStatus) (sr : option string)
    : Input :=
  {| in_listing := Some listing;
     in_guest := None;
     in_check_in_date := Some check_in;
     in_check_out_date := Some check_out;
     in_num_guests := Some guests;
     in_total_price := Some price;
     in_status := option_map value st;
     in_special_requests := sr |}.

(** Text that the [CharField] admits: it holds no null character. *)
Definition admitted (text : option string) : Prop :=
  match text with
  | Some s => has_null s = false
  | None => True
  end.

(** The primary key [pk] is not in use. *)
Definition fresh (db : DB) (pk : UUID) : Prop :=
  existsb (fun b => booking_id b =? pk) (bookings db) = false.

(** [Booking.objects.get(id=pk)] *)
Definition get_booking (db : DB) (pk : UUID) : option Booking :=
  find (fun b => booking_id b =? pk) (bookings db).

(** [Review.objects.get(id=pk)] *)
Definition get_review (db : DB) (pk : UUID) : option Review :=
  find (fun r => review_id r =? pk) (reviews db).

(** The validated data that hold every field of the booking [b], [l]
    being the row its listing resolves to. *)
Definition data_of (l : Listing) (b : Booking) : Data :=
  {| d_listing := Some l;
     d_guest := None;
     d_check_in_date := Some (check_in_date b);
     d_check_out_date := Some (check_out_date b);
     d_num_guests := Some (num_guests b);
     d_total_price := Some (total_price b);
     d_status := Some (status b);
     d_special_requests := Some (special_requests b) |}.

(** A PATCH that gives no field. *)
Definition empty_patch : Input :=
  {| in_listing := None; in_guest := None; in_check_in_date := None;
     in_check_out_date := None; in_num_guests := None;
     in_total_price := None; in_status := None;
     in_special_requests := None |}.

(** [unique_together = ['listing', 'reviewer']] as a property of the
    table: two reviews of one listing by one reviewer are the same row. *)
Definition one_review_per_reviewer (db : DB) : Prop :=
  forall r1 r2, In r1 (reviews db) -> In r2 (reviews db) ->
    review_listing r1 = review_listing r2 -> reviewer r1 = reviewer r2 ->
    review_id r1 = review_id r2.

(** Every stored rating is from 1 to 5. *)
Definition ratings_in_range (db : DB) : Prop :=
  Forall (fun r => 1 <= rating r <= 5) (reviews db).

(** The payload of a POST of a review. *)
Definition review_payload (listing : UUID) (stars : Z) (text : option string)
    : ReviewSerializer.Input :=
  {| ReviewSerializer.in_listing := Some listing;
     ReviewSerializer.in_reviewer := None;
     ReviewSerializer.in_rating := Some stars;
     ReviewSerializer.in_comment := text;
     ReviewSerializer.in_is_active := None |}.

End Inputs.

(** ** A small database: one host, listings of capacity 4, the bookings and
    reviews the examples use *)

Module Scenario.
Import Models Serializers.BookingSerializer Inputs.

Definition host_user : User := 1.
Definition guest_user : User := 2.
Definition other_user : User := 3.

Definition L : Listing :=
  {| listing_id := 10; host := host_user; price_per_night := 10000;
     max_guests := 4; listing_is_active := true |}.

Definition L_inactive : Listing :=
  {| listing_id := 11; host := host_user; price_per_night := 10000;
     max_guests := 4; listing_is_active := false |}.

Definition review (pk listing : UUID) (by_user : User) (stars : Z)
    (active : bool) : Review :=
  {| review_id := pk; review_listing := listing; reviewer := by_user;
     rating := stars; comment := "Nice place"; review_is_active := active |}.

Definition r1 : Review := review 200 10 guest_user 5 true.
Definition r2 : Review := review 201 10 other_user 4 true.
Definition r3 : Review := review 202 10 4 4 true.
Definition r4 : Review := review 203 10 5 1 false.
Definition r5 : Review := review 204 11 guest_user 2 true.

Definition booking (pk listing : UUID) (by_user : User)
    (check_in check_out : date) (guests : Z) (st : BookingStatus) : Booking :=
  {| booking_id := pk; booking_listing := listing; guest := by_user;
     check_in_date := check_in; check_out_date := check_out;
     num_guests := guests; total_price := 40000; status := st;
     special_requests := "" |}.

(** 2025-06-01 to 2025-06-05, 2 guests, Pending *)
Definition b1 : Booking :=
  booking 100 10 guest_user (ymd 2025 6 1) (ymd 2025 6 5) 2 PENDING.

Definition b_cancelled : Booking :=
  booking 101 10 guest_user (ymd 2025 7 1) (ymd 2025 7 5) 2 CANCELLED.

Definition b_completed : Booking :=
  booking 102 10 other_user (ymd 2025 5 1) (ymd 2025 5 5) 2 COMPLETED.

Definition db : DB :=
  {| listings := [L; L_inactive];
     reviews := [r1; r2; r3; r4; r5];
     bookings := [b1; b_cancelled; b_completed] |}.

(** The same rows, the reviews created in another order. *)
Definition db_reordered : DB :=
  {| listings := [L; L_inactive];
     reviews := [r5; r3; r4; r1; r2];
     bookings := [b1; b_cancelled; b_completed] |}.

End Scenario.

(** ** Proof automation: case analysis on integer comparisons *)

Ltac zcmp :=
  rewrite ?Z.geb_leb, ?Z.gtb_ltb;
  repeat match goal with
         | |- context [?a <? ?b] => destruct (Z.ltb_spec a b); try lia
         | |- context [?a <=? ?b] => destruct (Z.leb_spec a b); try lia
         | |- context [?a =? ?b] => destruct (Z.eqb_spec a b); try lia
         end.

(** * Properties *)

(** ** The review aggregate *)

Section Rounding.

Lemma round_half_even_near (y : Q) :
  (- (1 # 2) <= inject_Z (round_half_even y) - y <= 1 # 2)%Q.
Proof.
  unfold round_half_even.
  pose proof (Qfloor_le y) as Hlo.
  pose proof (Qlt_floor y) as Hhi.
  rewrite inject_Z_plus in Hhi.
  change (inject_Z 1) with 1%Q in Hhi.
  destruct (Qcompare (y - inject_Z (Qfloor y)) (1 # 2)) eqn:Hc.
  - apply Qeq_alt in Hc.
    destruct (Z.even (Qfloor y)).
    + lra.
    + rewrite inject_Z_plus. change (inject_Z 1) with 1%Q. lra.
  - apply Qlt_alt in Hc. lra.
  - apply Qgt_alt in Hc.
    rewrite inject_Z_plus. change (inject_Z 1) with 1%Q. lra.
Qed.

Lemma round2_rounded (x : Q) : Spec.rounded_2dp x (round2 x).
Proof.
  split.
  - exists (round_half_even (x * 100)). reflexivity.
  - unfold round2.
    pose proof (round_half_even_near (x * 100)) as [Hlo Hhi].
    set (k := inject_Z (round_half_even (x * 100))) in *.
    assert (E : (k / 100 == k * (1 # 100))%Q) by reflexivity.
    rewrite E. apply Qabs_Qle_condition. split; lra.
Qed.

Lemma zero_rounded (x : Q) : (x == 0)%Q -> Spec.rounded_2dp x 0%Q.
Proof.
  intros Hx. split.
  - exists 0%Z. reflexivity.
  - apply Qabs_Qle_condition. split; lra.
Qed.

End Rounding.

Section Aggregate.
Import Models.

Lemma filter_filter {A} (f g : A -> bool) (xs : list A) :
  filter g (filter f xs) = filter (fun x => f x && g x) xs.
Proof.
  induction xs as [|x xs IH]; simpl; [reflexivity|].
  destruct (f x); simpl; [destruct (g x)|]; rewrite IH; reflexivity.
Qed.

Lemma active_reviews_eq (db : DB) (l : Listing) :
  filter_is_active (listing_reviews db l) = Spec.active_reviews db l.
Proof. apply filter_filter. Qed.

Lemma Avg_nonempty (xs : list Z) :
  xs <> [] -> Avg xs = Some (Spec.mean xs).
Proof. destruct xs; [congruence | reflexivity]. Qed.

Lemma Permutation_filter' {A} (f : A -> bool) (xs ys : list A) :
  Permutation xs ys -> Permutation (filter f xs) (filter f ys).
Proof.
  induction 1 as [|x xs ys _ IH|x y xs|xs ys zs _ IH1 _ IH2]; simpl.
  - constructor.
  - destruct (f x); [constructor|]; exact IH.
  - destruct (f x), (f y); try reflexivity. constructor.
  - etransitivity; eassumption.
Qed.

Lemma sum_Permutation (xs ys : list Z) :
  Permutation xs ys -> sum xs = sum ys.
Proof.
  unfold sum.
  induction 1 as [|x xs ys _ IH|x y xs|xs ys zs _ IH1 _ IH2]; simpl; lia.
Qed.

Lemma Avg_Permutation (xs ys : list Z) :
  Permutation xs ys -> Avg xs = Avg ys.
Proof.
  intros H.
  pose proof (sum_Permutation _ _ H) as Hs.
  pose proof (Permutation_length H) as Hl.
  destruct xs as [|x xs], ys as [|y ys]; try discriminate; [reflexivity|].
  unfold Avg. rewrite Hs, Hl. reflexivity.
Qed.

End Aggregate.

(** C6: the rating summary of a listing is computed over exactly its reviews
    with [is_active] set: the count is their number, the average is their
    arithmetic mean rounded to 2 decimal places, and with no such review
    the average is 0.0 and the count 0. *)
Theorem C6_rating_summary (db : Models.DB) (l : Models.Listing) :
  let rs := Spec.active_reviews db l in
  Models.review_count db l = Z.of_nat (List.length rs)
  /\ (rs = [] -> Models.average_rating db l = 0%Q /\ Models.review_count db l = 0)
  /\ (rs <> [] ->
      Spec.rounded_2dp (Spec.mean (map Models.rating rs))
        (Models.average_rating db l)).
Proof.
  intros rs. unfold Models.review_count, Models.average_rating.
  rewrite active_reviews_eq. fold rs.
  split; [reflexivity|]. split.
  - intros ->. split; reflexivity.
  - intros Hne.
    rewrite Avg_nonempty by (destruct rs; [congruence | discriminate]).
    destruct (Qeq_bool _ 0) eqn:Hz.
    + apply zero_rounded. apply Qeq_bool_iff. exact Hz.
    + apply round2_rounded.
Qed.

(** C7: two review tables that are permutations of each other give every
    listing the same average rating and the same review count. *)
Theorem C7_rating_summary_reordering (db1 db2 : Models.DB) (l : Models.Listing) :
  Permutation (Models.reviews db1) (Models.reviews db2) ->
  Models.average_rating db1 l = Models.average_rating db2 l
  /\ Models.review_count db1 l = Models.review_count db2 l.
Proof.
  intros H.
  assert (Hp : Permutation
                 (Models.filter_is_active (Models.listing_reviews db1 l))
                 (Models.filter_is_active (Models.listing_reviews db2 l))).
  { unfold Models.filter_is_active, Models.listing_reviews.
    do 2 apply Permutation_filter'. exact H. }
  unfold Models.average_rating, Models.review_count. split.
  - rewrite (Avg_Permutation _ _ (Permutation_map Models.rating Hp)).
    reflexivity.
  - rewrite (Permutation_length Hp). reflexivity.
Qed.

Lemma C7_witness :
  Permutation (Models.reviews Scenario.db) (Models.reviews Scenario.db_reordered)
  /\ Models.average_rating Scenario.db Scenario.L
     = Models.average_rating Scenario.db_reordered Scenario.L
  /\ Models.review_count Scenario.db Scenario.L
     = Models.review_count Scenario.db_reordered Scenario.L.
Proof.
  assert (H : Permutation (Models.reviews Scenario.db)
                (Models.reviews Scenario.db_reordered)).
  { cbn [Models.reviews Scenario.db Scenario.db_reordered].
    apply (Permutation_cons_app [Scenario.r5; Scenario.r3; Scenario.r4]
             [Scenario.r2]).
    apply (Permutation_cons_app [Scenario.r5; Scenario.r3; Scenario.r4] []).
    apply (Permutation_cons_app [Scenario.r5] [Scenario.r4]).
    apply perm_swap. }
  split; [exact H|].
  exact (C7_rating_summary_reordering Scenario.db Scenario.db_reordered
           Scenario.L H).
Defined.

(** ** The booking serializer *)

Section BookingFields.
Import Models Serializers Serializers.BookingSerializer.

Lemma writable_fields :
  w "listing" = true /\ w "guest" = false /\ w "check_in_date" = true
  /\ w "check_out_date" = true /\ w "num_guests" = true
  /\ w "total_price" = true /\ w "status" = true
  /\ w "special_requests" = true.
Proof. repeat split; reflexivity. Qed.

Lemma num_guests_field_ok (n : Z) :
  1 <= n <= integer_max_value ->
  (v <- MaxValueValidator integer_max_value n ;; v <- MinValueValidator 1 v ;;
   validate_num_guests v) = Ok n.
Proof.
  intros H. unfold MaxValueValidator, MinValueValidator, validate_num_guests.
  zcmp. simpl. zcmp. simpl. zcmp. reflexivity.
Qed.

Lemma num_guests_field_err (n : Z) :
  n < 1 ->
  (v <- MaxValueValidator integer_max_value n ;; v <- MinValueValidator 1 v ;;
   validate_num_guests v) = Err (min_value 1).
Proof.
  intros H. unfold MaxValueValidator, MinValueValidator, integer_max_value.
  zcmp. simpl. zcmp. reflexivity.
Qed.

Lemma has_null_lstrip (s : string) :
  has_null s = false -> has_null (lstrip s) = false.
Proof.
  induction s as [|c s IH]; [reflexivity|]. cbn [has_null lstrip].
  intros H. apply orb_false_iff in H as [Hc Hs].
  destruct (isspace c); [apply IH; exact Hs|].
  cbn [has_null]. rewrite Hc, Hs. reflexivity.
Qed.

Lemma has_null_rstrip (s : string) :
  has_null s = false -> has_null (rstrip s) = false.
Proof.
  induction s as [|c s IH]; [reflexivity|]. cbn [has_null rstrip].
  intros H. apply orb_false_iff in H as [Hc Hs]. specialize (IH Hs).
  destruct (rstrip s) as [|c' r].
  - destruct (isspace c); [reflexivity|]. cbn [has_null]. rewrite Hc.
    reflexivity.
  - cbn [has_null] in *. rewrite Hc, IH. reflexivity.
Qed.

(** Text without a null character is accepted, stripped. *)
Lemma CharField_ok (s : string) :
  has_null s = false -> CharField s = Ok (strip s).
Proof.
  intros H. unfold CharField.
  destruct (String.eqb_spec s "") as [->|_]; [reflexivity|].
  destruct (String.eqb_spec (strip s) "") as [->|_]; [reflexivity|].
  cbn [orb]. unfold strip.
  rewrite (has_null_rstrip _ (has_null_lstrip _ H)). reflexivity.
Qed.

(** What the field returns is the stripped text, free of null
    characters. *)
Lemma CharField_Ok (s v : string) :
  CharField s = Ok v -> v = strip s /\ has_null v = false.
Proof.
  unfold CharField.
  destruct (String.eqb_spec s "") as [->|_];
    [intros [= <-]; split; reflexivity|].
  destruct (String.eqb_spec (strip s) "") as [E|_]; cbn [orb].
  - intros [= <-]. rewrite E. split; reflexivity.
  - destruct (has_null (strip s)) eqn:Hn; [discriminate|].
    intros [= <-]. split; [reflexivity | exact Hn].
Qed.

Lemma total_price_field_ok (p : Z) :
  0 < p < 10 ^ 10 ->
  (v <- max_digits_10 p ;; v <- MinValueValidator 0 v ;;
   validate_total_price v) = Ok p.
Proof.
  intros H. unfold max_digits_10, MinValueValidator, validate_total_price.
  rewrite Z.abs_eq by lia.
  zcmp. simpl. zcmp. simpl. zcmp. reflexivity.
Qed.

Lemma status_field_value (c : BookingStatus) : status_field (value c) = Ok c.
Proof. destruct c; reflexivity. Qed.

Lemma status_field_Ok (s : string) (c : BookingStatus) :
  status_field s = Ok c -> value c = s.
Proof.
  unfold status_field.
  destruct (find _ choices) as [c'|] eqn:Hf; [|discriminate].
  intros [= <-]. apply find_some in Hf as [_ Hf].
  apply String.eqb_eq. exact Hf.
Qed.

(** [validate] accepts what satisfies both of its rules, unchanged. *)
Lemma validate_ok (data : Data) (l : Listing) (ci co n : Z) :
  d_listing data = Some l -> d_check_in_date data = Some ci ->
  d_check_out_date data = Some co -> d_num_guests data = Some n ->
  ci < co -> n <= max_guests l ->
  validate data = Ok data.
Proof.
  intros Hl Hci Hco Hn Hd Hc. unfold validate.
  rewrite Hl, Hci, Hco, Hn. zcmp; reflexivity.
Qed.

(** [validate] returns its argument or raises. *)
Lemma validate_Ok (data data' : Data) :
  validate data = Ok data' -> data' = data.
Proof.
  unfold validate.
  destruct (d_check_in_date data) as [ci|], (d_check_out_date data) as [co|];
    try destruct (ci >=? co); simpl; try discriminate;
    destruct (d_listing data) as [l|], (d_num_guests data) as [n|];
    try destruct (negb (n =? 0)); try destruct (n >? max_guests l);
    simpl; congruence.
Qed.

(** What [to_internal_value] returns is what each field returned. *)
Lemma to_internal_value_Ok (db : DB) (partial : bool) (inp : Input) (data : Data) :
  to_internal_value db partial inp = Ok data ->
  run_field true partial true (in_listing inp) (listing_field db)
    = Ok (d_listing data)
  /\ d_guest data = None
  /\ run_field true partial true (in_check_in_date inp) (@Ok ValidationError date)
     = Ok (d_check_in_date data)
  /\ run_field true partial true (in_check_out_date inp) (@Ok ValidationError date)
     = Ok (d_check_out_date data)
  /\ run_field true partial true (in_num_guests inp)
       (fun v => v <- MaxValueValidator integer_max_value v ;;
                 v <- MinValueValidator 1 v ;; validate_num_guests v)
     = Ok (d_num_guests data)
  /\ run_field true partial true (in_total_price inp)
       (fun v => v <- max_digits_10 v ;; v <- MinValueValidator 0 v ;;
                 validate_total_price v)
     = Ok (d_total_price data)
  /\ run_field true partial false (in_status inp) status_field
     = Ok (d_status data)
  /\ run_field true partial false (in_special_requests inp) CharField
     = Ok (d_special_requests data).
Proof.
  unfold to_internal_value.
  destruct writable_fields as (-> & -> & -> & -> & -> & -> & -> & ->).
  destruct (run_field true partial true (in_listing inp) _); [|discriminate].
  destruct (run_field true partial true (in_check_in_date inp) _);
    [|discriminate].
  destruct (run_field true partial true (in_check_out_date inp) _);
    [|discriminate].
  destruct (run_field true partial true (in_num_guests inp) _); [|discriminate].
  destruct (run_field true partial true (in_total_price inp) _); [|discriminate].
  destruct (run_field true partial false (in_status inp) _); [|discriminate].
  destruct (run_field true partial false (in_special_requests inp) _);
    [|discriminate].
  simpl. intros [= <-]. simpl. repeat split; reflexivity.
Qed.

End BookingFields.

Section BookingCreate.
Import Models Serializers Serializers.BookingSerializer Views Inputs.

Lemma run_validation_accepts (db : DB) (pk_l : UUID) (l : Listing)
    (ci co n p : Z) (st : option BookingStatus) (sr : option string) :
  get_listing db pk_l = Some l ->
  ci < co -> 1 <= n <= max_guests l -> n <= integer_max_value ->
  0 < p < 10 ^ 10 -> admitted sr ->
  run_validation db false (payload pk_l ci co n p st sr)
  = Ok {| d_listing := Some l; d_guest := None;
          d_check_in_date := Some ci; d_check_out_date := Some co;
          d_num_guests := Some n; d_total_price := Some p;
          d_status := st; d_special_requests := option_map strip sr |}.
Proof.
  intros Hl Hd Hn Hmax Hp Hsr.
  unfold run_validation, to_internal_value, payload.
  destruct writable_fields as (-> & -> & -> & -> & -> & -> & -> & ->).
  cbn [run_field in_listing in_guest in_check_in_date in_check_out_date
       in_num_guests in_total_price in_status in_special_requests
       andb negb].
  unfold listing_field. rewrite Hl.
  rewrite num_guests_field_ok by lia.
  rewrite total_price_field_ok by lia.
  assert (Hst : match option_map value st with
                | Some v => x <- status_field v ;; Ok (Some x)
                | None => Ok None
                end = @Ok ValidationError _ st).
  { destruct st as [c|]; simpl; [rewrite status_field_value|]; reflexivity. }
  rewrite Hst.
  assert (Hsr' : match sr with
                 | Some v => x <- CharField v ;; Ok (Some x)
                 | None => Ok None
                 end = @Ok ValidationError _ (option_map strip sr)).
  { destruct sr as [t|]; [|reflexivity].
    cbn [admitted] in Hsr. rewrite (CharField_ok t Hsr). reflexivity. }
  rewrite Hsr'. cbn [bind error_of value_of app].
  erewrite validate_ok; [reflexivity | reflexivity.. | lia | lia].
Qed.

(** A POST by an authenticated user that names an existing listing, with
    check-in before check-out, a guest count from 1 to [max_guests] and in
    the range of the field, a positive price of 10 digits at most, one of
    the status choices or none, and special requests that the field
    admits or none, creates the booking. *)
Lemma create_accepted (db : DB) (usr : User) (pk pk_l : UUID) (l : Listing)
    (ci co n p : Z) (st : option BookingStatus) (sr : option string) :
  get_listing db pk_l = Some l ->
  ci < co -> 1 <= n <= max_guests l -> n <= integer_max_value ->
  0 < p < 10 ^ 10 -> admitted sr ->
  fresh db pk ->
  let b := {| booking_id := pk; booking_listing := listing_id l;
              guest := usr; check_in_date := ci; check_out_date := co;
              num_guests := n; total_price := p;
              status := match st with Some s => s | None => PENDING end;
              special_requests := match sr with
                                  | Some s => strip s
                                  | None => ""
                                  end |} in
  BookingViewSet.create db (Some usr) pk (payload pk_l ci co n p st sr)
  = (HTTP_201_CREATED b, insert_booking db b).
Proof.
  intros Hl Hd Hn Hmax Hp Hsr Hf b. unfold BookingViewSet.create.
  rewrite (run_validation_accepts db pk_l l ci co n p st sr Hl Hd Hn Hmax Hp Hsr).
  cbn. unfold fresh in Hf. rewrite Hf.
  destruct sr; reflexivity.
Qed.

End BookingCreate.

Section Examples.
Import Models Scenario.

Example ymd_2025_06_01 : ymd 2025 6 1 = 739403.
Proof. reflexivity. Qed.

Example ymd_leap_day : ymd 2024 3 1 - ymd 2024 2 28 = 2.
Proof. reflexivity. Qed.

Example average_rating_L : average_rating db L = (433 # 100)%Q.
Proof. vm_compute. reflexivity. Qed.

Example review_count_L : review_count db L = 3.
Proof. reflexivity. Qed.

Example average_rating_no_review :
  average_rating {| listings := [L]; reviews := [r4; r5]; bookings := [] |} L
  = 0%Q.
Proof. reflexivity. Qed.

Example round2_tie_to_even :
  round2 (1 # 8) = (12 # 100)%Q /\ round2 (3 # 8) = (38 # 100)%Q.
Proof. split; vm_compute; reflexivity. Qed.

End Examples.

(** ** Booking creation *)

Section RunField.
Import Serializers.

Lemma run_field_required_Ok {A B} (raw : option A)
    (run : A -> result ValidationError B) (v : option B) :
  run_field true false true raw run = Ok v ->
  exists a b, raw = Some a /\ run a = Ok b /\ v = Some b.
Proof.
  unfold run_field. destruct raw as [a|]; simpl; [|discriminate].
  destruct (run a) as [b|e] eqn:Hr; simpl; [|discriminate].
  intros [= <-]. exists a, b. auto.
Qed.

Lemma run_field_optional_Ok {A B} (partial : bool) (raw : option A)
    (run : A -> result ValidationError B) (v : option B) :
  run_field true partial false raw run = Ok v ->
  match raw with
  | Some a => exists b, run a = Ok b /\ v = Some b
  | None => v = None
  end.
Proof.
  unfold run_field. destruct raw as [a|]; simpl.
  - destruct (run a) as [b|e]; simpl; [|discriminate].
    intros [= <-]. exists b. auto.
  - intros [= <-]. reflexivity.
Qed.

End RunField.

Section BookingClaims.
Import Models Serializers Serializers.BookingSerializer Views Inputs.

Lemma create_Created (db db' : DB) (usr : option User) (pk : UUID) (inp : Input)
    (b : Booking) :
  BookingViewSet.create db usr pk inp = (HTTP_201_CREATED b, db') ->
  exists u data,
    usr = Some u
    /\ to_internal_value db false inp = Ok data
    /\ validate data = Ok data
    /\ create pk u data = Some b
    /\ db' = insert_booking db b.
Proof.
  unfold BookingViewSet.create, run_validation.
  destruct (negb _); [discriminate|].
  destruct (to_internal_value db false inp) as [data|errors] eqn:Hv; simpl;
    [|discriminate].
  destruct (validate data) as [data'|e] eqn:Hval; [|discriminate].
  pose proof (validate_Ok _ _ Hval) as ->.
  destruct usr as [u|]; [|discriminate].
  unfold BookingViewSet.perform_create.
  destruct (create pk u data) as [b'|] eqn:Hc; [|discriminate].
  destruct (existsb _ _); [discriminate|].
  intros [= <- <-]. exists u, data. auto.
Qed.

Lemma create_status (pk : UUID) (u : User) (data : Data) (b : Booking) :
  create pk u data = Some b ->
  status b = match d_status data with Some s => s | None => PENDING end
  /\ guest b = u.
Proof.
  unfold create.
  destruct (d_listing data), (d_check_in_date data), (d_check_out_date data),
    (d_num_guests data), (d_total_price data); try discriminate.
  intros [= <-]. split; reflexivity.
Qed.

End BookingClaims.




(** The third request of the scenario, 2025-06-05 to 2025-06-06, only
    touches the existing booking at its check-out date, and is created. *)
Example adjacent_request_created :
  Spec.conflicts 10 (ymd 2025 6 5) (ymd 2025 6 6) Scenario.b1 = false
  /\ exists b db',
       Views.BookingViewSet.create Scenario.db (Some Scenario.other_user) 104
         (Inputs.payload 10 (ymd 2025 6 5) (ymd 2025 6 6) 1 10000 None None)
       = (Views.HTTP_201_CREATED b, db').
Proof. split; [reflexivity|]. eexists. eexists. vm_compute. reflexivity. Qed.

(** Special requests are stored stripped of surrounding whitespace, and
    refused when they hold a null character; a guest count above the range
    of the field is refused. *)
Example special_requests_stripped :
  exists b db',
    Views.BookingViewSet.create Scenario.db (Some Scenario.other_user) 104
      (Inputs.payload 10 (ymd 2025 6 5) (ymd 2025 6 6) 1 10000 None
         (Some "  a cot, please  "))
    = (Views.HTTP_201_CREATED b, db')
    /\ Models.special_requests b = "a cot, please".
Proof. eexists. eexists. vm_compute. split; reflexivity. Qed.

Example null_character_refused :
  Views.BookingViewSet.create Scenario.db (Some Scenario.other_user) 104
    (Inputs.payload 10 (ymd 2025 6 5) (ymd 2025 6 6) 1 10000 None
       (Some (String Ascii.zero "x")))
  = (Views.HTTP_400_BAD_REQUEST
       [("special_requests", Serializers.null_characters_not_allowed)],
     Scenario.db).
Proof. vm_compute. reflexivity. Qed.

Example guest_count_out_of_range_refused :
  Serializers.BookingSerializer.run_validation Scenario.db false
    (Inputs.payload 10 (ymd 2025 6 5) (ymd 2025 6 6) (2 ^ 63) 10000 None None)
  = Err [("num_guests",
          Serializers.max_value Serializers.integer_max_value)].
Proof. vm_compute. reflexivity. Qed.

(** C3 (as the code has it): [status] is a writable field of the
    serializer, so a created booking has the status the payload gives, any
    of the four choices; it is Pending when the payload gives none. *)
Theorem C3_created_status
    (db db' : Models.DB) (usr : option User) (pk : UUID)
    (inp : Serializers.BookingSerializer.Input) (b : Models.Booking) :
  Views.BookingViewSet.create db usr pk inp = (Views.HTTP_201_CREATED b, db') ->
  match Serializers.BookingSerializer.in_status inp with
  | Some s => Models.value (Models.status b) = s
  | None => Models.status b = Models.PENDING
  end.
Proof.
  intros H.
  apply create_Created in H as (u & data & _ & Hv & _ & Hc & _).
  apply create_status in Hc as [-> _].
  apply to_internal_value_Ok in Hv as (_ & _ & _ & _ & _ & _ & Hs & _).
  apply run_field_optional_Ok in Hs.
  destruct (Serializers.BookingSerializer.in_status inp) as [s|].
  - destruct Hs as (c & Hc & ->). apply status_field_Ok. exact Hc.
  - rewrite Hs. reflexivity.
Qed.

Lemma C3_witness :
  let b := {| Models.booking_id := 105; Models.booking_listing := 10;
              Models.guest := Scenario.guest_user;
              Models.check_in_date := ymd 2025 8 1;
              Models.check_out_date := ymd 2025 8 3;
              Models.num_guests := 2; Models.total_price := 20000;
              Models.status := Models.COMPLETED;
              Models.special_requests := "" |} in
  Views.BookingViewSet.create Scenario.db (Some Scenario.guest_user) 105
    (Inputs.payload 10 (ymd 2025 8 1) (ymd 2025 8 3) 2 20000
       (Some Models.COMPLETED) None)
  = (Views.HTTP_201_CREATED b, Views.insert_booking Scenario.db b)
  /\ Models.value (Models.status b) = "completed".
Proof.
  intros b.
  assert (H : Views.BookingViewSet.create Scenario.db (Some Scenario.guest_user)
                105
                (Inputs.payload 10 (ymd 2025 8 1) (ymd 2025 8 3) 2 20000
                   (Some Models.COMPLETED) None)
              = (Views.HTTP_201_CREATED b, Views.insert_booking Scenario.db b))
    by (vm_compute; reflexivity).
  split; [exact H|].
  exact (C3_created_status _ _ _ _ _ _ H).
Defined.

(** C3, the counter-example: a payload with [status] "confirmed" is
    created as a Confirmed booking. *)
Lemma C3_counterexample :
  exists b db',
    Views.BookingViewSet.create Scenario.db (Some Scenario.guest_user) 105
      (Inputs.payload 10 (ymd 2025 8 1) (ymd 2025 8 3) 2 20000
         (Some Models.CONFIRMED) None)
    = (Views.HTTP_201_CREATED b, db')
    /\ Models.status b = Models.CONFIRMED
    /\ Models.status b <> Models.PENDING.
Proof.
  eexists. eexists. split; [vm_compute; reflexivity|].
  split; [reflexivity | discriminate].
Qed.

Section MissingListing.
Import Models Serializers Serializers.BookingSerializer.


End MissingListing.




(** A listing that does not exist, no guest and no price: the three fields
    are reported together, in field order, and nothing of [validate],
    although check-in is not before check-out. *)
Example field_errors_collected :
  Serializers.BookingSerializer.run_validation Scenario.db false
    (Inputs.payload 99 (ymd 2025 9 4) (ymd 2025 9 1) 0 0 None None)
  = Err [("listing", Serializers.does_not_exist 99);
         ("num_guests", Serializers.min_value 1);
         ("total_price", Serializers.TotalPriceNotPositive)].
Proof. vm_compute. reflexivity. Qed.

(** C10: the host of a listing can book it: nothing compares the guest with
    the listing's host. Every request by the host that passes the rules
    (check-in before check-out, 1 to [max_guests] guests within the range
    of the field, a positive price of 10 digits at most, a status choice or
    none, special requests without a null character or none) is created
    with the host as its guest and stored in the bookings, and there is
    one. *)
Theorem C10_host_books_own_listing :
  (forall (db : Models.DB) (pk pk_l : UUID) (l : Models.Listing)
          (ci co n p : Z) (st : option Models.BookingStatus)
          (sr : option string),
      Models.get_listing db pk_l = Some l ->
      ci < co -> 1 <= n <= Models.max_guests l ->
      n <= Serializers.integer_max_value ->
      0 < p < 10 ^ 10 ->
      Inputs.admitted sr ->
      Inputs.fresh db pk ->
      exists b db',
        Views.BookingViewSet.create db (Some (Models.host l)) pk
          (Inputs.payload pk_l ci co n p st sr)
        = (Views.HTTP_201_CREATED b, db')
        /\ Models.guest b = Models.host l
        /\ Models.booking_listing b = Models.listing_id l
        /\ Models.bookings db' = (Models.bookings db ++ [b])%list
        /\ In b (Models.bookings db'))
  /\ (exists b db',
        Views.BookingViewSet.create Scenario.db
          (Some (Models.host Scenario.L)) 108
          (Inputs.payload 10 (ymd 2025 10 1) (ymd 2025 10 3) 2 20000 None None)
        = (Views.HTTP_201_CREATED b, db')
        /\ Models.guest b = Models.host Scenario.L
        /\ Models.booking_listing b = Models.listing_id Scenario.L
        /\ Models.bookings db' = (Models.bookings Scenario.db ++ [b])%list
        /\ In b (Models.bookings db')).
Proof.
  split.
  - intros db pk pk_l l ci co n p st sr Hl Hd Hn Hmax Hp Hsr Hf.
    eexists. eexists. split; [apply create_accepted; eassumption|].
    split; [reflexivity|]. split; [reflexivity|]. split; [reflexivity|].
    cbn. apply in_or_app. right. left. reflexivity.
  - eexists. eexists. split; [vm_compute; reflexivity|].
    split; [reflexivity|]. split; [reflexivity|]. split; [reflexivity|].
    cbn. do 3 right. left. reflexivity.
Qed.

(** ** The order and the number of the errors *)

Section Rejections.
Import Models Serializers Serializers.BookingSerializer.

Lemma collect_errors {A} (errors : Errors) (v : A) (x : string * ValidationError) :
  In x errors ->
  match errors with
  | [] => Ok v
  | p :: l => Err (p :: l)
  end = Err errors.
Proof. destruct errors; [contradiction | reflexivity]. Qed.

Lemma num_guests_error (db : DB) (partial : bool) (inp : Input) (n : Z) :
  in_num_guests inp = Some n -> n < 1 ->
  exists errors,
    to_internal_value db partial inp = Err errors
    /\ In ("num_guests", min_value 1) errors.
Proof.
  intros Hn Hlt. unfold to_internal_value.
  destruct writable_fields as (_ & _ & _ & _ & -> & _).
  unfold run_field at 5. rewrite Hn, (num_guests_field_err n Hlt).
  eexists. split.
  - apply collect_errors with (x := ("num_guests", min_value 1)).
    do 4 (apply in_or_app; right). apply in_or_app. left. left. reflexivity.
  - do 4 (apply in_or_app; right). apply in_or_app. left. left. reflexivity.
Qed.

(** After the fields, [validate] gives one error at most. *)
Lemma run_validation_cases (db : DB) (partial : bool) (inp : Input) (data : Data) :
  to_internal_value db partial inp = Ok data ->
  (validate data = Ok data /\ run_validation db partial inp = Ok data)
  \/ (exists e, validate data = Err e
                /\ run_validation db partial inp = Err [(non_field_errors, e)]).
Proof.
  intros Hv. unfold run_validation. rewrite Hv. cbn [bind].
  destruct (validate data) as [data'|e] eqn:Hval.
  - left. apply validate_Ok in Hval as ->. auto.
  - right. exists e. auto.
Qed.

Lemma validate_dates (data : Data) (ci co : Z) :
  d_check_in_date data = Some ci -> d_check_out_date data = Some co ->
  ci >= co -> validate data = Err CheckOutNotAfterCheckIn.
Proof.
  intros Hci Hco Hge. unfold validate. rewrite Hci, Hco.
  zcmp. reflexivity.
Qed.

Lemma validate_capacity (data : Data) (l : Listing) (ci co n : Z) :
  d_listing data = Some l -> d_check_in_date data = Some ci ->
  d_check_out_date data = Some co -> d_num_guests data = Some n ->
  ci < co -> 1 <= n -> n > max_guests l ->
  validate data = Err (GuestsExceedCapacity n (max_guests l)).
Proof.
  intros Hl Hci Hco Hn Hd H1 Hc. unfold validate.
  rewrite Hl, Hci, Hco, Hn. zcmp. reflexivity.
Qed.

End Rejections.



(** C8 (as the code has it): a request with fewer than 1 guest, or with
    more guests than the listing's [max_guests], is always rejected, and
    no booking is read to reject it. A count below 1 is an error of the
    field [num_guests]. A count above [max_guests] is the capacity error of
    [validate] once the fields pass and check-in is before check-out. *)
Theorem C8_guest_count_rejected
    (db : Models.DB) (inp : Serializers.BookingSerializer.Input) (n : Z) :
  Serializers.BookingSerializer.in_num_guests inp = Some n ->
  (n < 1 ->
   exists errors,
     Serializers.BookingSerializer.run_validation db false inp = Err errors
     /\ In ("num_guests", Serializers.min_value 1) errors
     /\ Spec.rejected_with Spec.GuestCapacityExceeded errors = true)
  /\ (forall pk l,
        Serializers.BookingSerializer.in_listing inp = Some pk ->
        Models.get_listing db pk = Some l ->
        n > Models.max_guests l ->
        exists errors,
          Serializers.BookingSerializer.run_validation db false inp = Err errors
          /\ (forall data ci co,
                Serializers.BookingSerializer.to_internal_value db false inp
                = Ok data ->
                Serializers.BookingSerializer.in_check_in_date inp = Some ci ->
                Serializers.BookingSerializer.in_check_out_date inp = Some co ->
                ci < co ->
                errors = [(Serializers.non_field_errors,
                           Serializers.GuestsExceedCapacity n
                             (Models.max_guests l))]))
  /\ (forall bs,
        Serializers.BookingSerializer.run_validation
          {| Models.listings := Models.listings db;
             Models.reviews := Models.reviews db;
             Models.bookings := bs |} false inp
        = Serializers.BookingSerializer.run_validation db false inp).
Proof.
  intros Hn. split; [|split].
  - intros Hlt.
    destruct (num_guests_error db false inp n Hn Hlt) as (errors & Hv & Hin).
    exists errors. split; [|split].
    + unfold Serializers.BookingSerializer.run_validation. rewrite Hv.
      reflexivity.
    + exact Hin.
    + unfold Spec.rejected_with. apply existsb_exists.
      exists ("num_guests", Serializers.min_value 1). split; [exact Hin|].
      reflexivity.
  - intros pk l Hpk Hl Hgt.
    destruct (Serializers.BookingSerializer.to_internal_value db false inp)
      as [data|errors] eqn:Hv.
    + pose proof (to_internal_value_Ok _ _ _ _ Hv)
        as (Fl & _ & Fci & Fco & Fn & _).
      apply run_field_required_Ok in Fl as (pk' & l' & Epk & El & Dl).
      apply run_field_required_Ok in Fci as (ci' & ? & Eci & [= <-] & Dci).
      apply run_field_required_Ok in Fco as (co' & ? & Eco & [= <-] & Dco).
      apply run_field_required_Ok in Fn as (n' & n'' & En & Efn & Dn).
      rewrite Hpk in Epk. injection Epk as <-.
      unfold Serializers.listing_field in El. rewrite Hl in El.
      injection El as <-.
      rewrite Hn in En. injection En as <-.
      assert (H1 : 1 <= n /\ n'' = n).
      { revert Efn.
        unfold Serializers.MaxValueValidator, Serializers.MinValueValidator,
          Serializers.BookingSerializer.validate_num_guests.
        destruct (n >? Serializers.integer_max_value); cbn [bind];
          [discriminate|].
        destruct (Z.ltb_spec n 1); cbn [bind]; [discriminate|].
        destruct (n <=? 0); [discriminate|]. intros [= <-]. split; [lia|reflexivity]. }
      destruct H1 as [H1 ->].
      destruct (run_validation_cases db false inp data Hv)
        as [[Hval Hr] | (e & Hval & Hr)].
      * exfalso. destruct (Z_lt_ge_dec ci' co') as [Hlt|Hge].
        -- rewrite (validate_capacity data l ci' co' n Dl Dci Dco Dn Hlt H1 Hgt)
             in Hval. discriminate.
        -- rewrite (validate_dates data ci' co' Dci Dco Hge) in Hval.
           discriminate.
      * exists [(Serializers.non_field_errors, e)]. split; [exact Hr|].
        intros data0 ci co [= <-] Hci Hco Hlt.
        rewrite Hci in Eci. injection Eci as <-.
        rewrite Hco in Eco. injection Eco as <-.
        rewrite (validate_capacity data l ci co n Dl Dci Dco Dn Hlt H1 Hgt)
          in Hval.
        injection Hval as <-. reflexivity.
    + exists errors. split.
      * unfold Serializers.BookingSerializer.run_validation. rewrite Hv.
        reflexivity.
      * intros data ci co [=].
  - intros bs. reflexivity.
Qed.

Lemma C8_witness :
  (5 > Models.max_guests Scenario.L)
  /\ Serializers.BookingSerializer.run_validation Scenario.db false
       (Inputs.payload 10 (ymd 2025 6 10) (ymd 2025 6 12) 5 50000 None None)
     = Err [(Serializers.non_field_errors,
             Serializers.GuestsExceedCapacity 5 4)].
Proof.
  split; [reflexivity|].
  destruct (C8_guest_count_rejected Scenario.db
              (Inputs.payload 10 (ymd 2025 6 10) (ymd 2025 6 12) 5 50000
                 None None) 5 eq_refl) as (_ & H & _).
  destruct (H 10 Scenario.L eq_refl eq_refl eq_refl) as (errors & Hr & Herr).
  rewrite Hr. f_equal.
  eapply Herr with (ci := ymd 2025 6 10) (co := ymd 2025 6 12).
  - vm_compute. reflexivity.
  - reflexivity.
  - reflexivity.
  - reflexivity.
Defined.

(** C8, the counter-example: 5 guests for the listing of 4, and check-out
    on the day of check-in: the request is rejected, and the rejection
    holds no error of the guest count. *)
Lemma C8_counterexample :
  (5 >? Models.max_guests Scenario.L) = true
  /\ exists errors,
       Serializers.BookingSerializer.run_validation Scenario.db false
         (Inputs.payload 10 (ymd 2025 6 20) (ymd 2025 6 20) 5 50000 None None)
       = Err errors
       /\ Spec.rejected_with Spec.GuestCapacityExceeded errors = false
       /\ Spec.rejected_with Spec.InvalidDateRange errors = true.
Proof.
  split; [reflexivity|]. eexists. split; [vm_compute; reflexivity|].
  split; reflexivity.
Qed.

(** ** The status of a booking *)

Section Status.
Import Models Admin Inputs.

Lemma find_map_same_id (f : Booking -> Booking) (pk : UUID) (bs : list Booking) :
  (forall b, booking_id (f b) = booking_id b) ->
  find (fun b => booking_id b =? pk) (map f bs)
  = option_map f (find (fun b => booking_id b =? pk) bs).
Proof.
  intros Hf. induction bs as [|b bs IH]; [reflexivity|].
  cbn [map find]. rewrite Hf.
  destruct (booking_id b =? pk); [reflexivity | exact IH].
Qed.

Lemma update_get_booking (db : DB) (queryset : Booking -> bool)
    (s : BookingStatus) (pk : UUID) :
  get_booking (snd (update db queryset s)) pk
  = option_map (fun b => if queryset b then set_status s b else b)
      (get_booking db pk).
Proof.
  unfold get_booking, update. cbn [snd bookings].
  apply find_map_same_id.
  intros b. destruct (queryset b); reflexivity.
Qed.

Lemma mark_as_confirmed_db (db : DB) (queryset : Booking -> bool) :
  snd (BookingAdmin.mark_as_confirmed db queryset)
  = snd (update db queryset CONFIRMED).
Proof.
  unfold BookingAdmin.mark_as_confirmed.
  destruct (update db queryset CONFIRMED). reflexivity.
Qed.

Lemma mark_as_cancelled_db (db : DB) (queryset : Booking -> bool) :
  snd (BookingAdmin.mark_as_cancelled db queryset)
  = snd (update db queryset CANCELLED).
Proof.
  unfold BookingAdmin.mark_as_cancelled.
  destruct (update db queryset CANCELLED). reflexivity.
Qed.

End Status.

(** C2 (as the code has it): the admin actions write the status of every
    selected booking in one update, whatever its current status: none is
    refused, a selected booking is Confirmed after [mark_as_confirmed] and
    Cancelled after [mark_as_cancelled], also from Cancelled or Completed;
    a booking that is not selected keeps its status. *)
Theorem C2_admin_actions_overwrite_status
    (db : Models.DB) (queryset : Models.Booking -> bool) (pk : UUID)
    (b : Models.Booking) :
  Inputs.get_booking db pk = Some b ->
  (queryset b = true ->
   Inputs.get_booking (snd (Admin.BookingAdmin.mark_as_confirmed db queryset)) pk
   = Some (Admin.set_status Models.CONFIRMED b)
   /\ Inputs.get_booking (snd (Admin.BookingAdmin.mark_as_cancelled db queryset)) pk
      = Some (Admin.set_status Models.CANCELLED b))
  /\ (queryset b = false ->
      Inputs.get_booking (snd (Admin.BookingAdmin.mark_as_confirmed db queryset)) pk
      = Some b
      /\ Inputs.get_booking (snd (Admin.BookingAdmin.mark_as_cancelled db queryset)) pk
         = Some b).
Proof.
  intros Hb.
  rewrite mark_as_confirmed_db, mark_as_cancelled_db.
  rewrite !update_get_booking, Hb. cbn [option_map].
  split; intros ->; split; reflexivity.
Qed.

Lemma C2_witness :
  Spec.valid_transition (Models.status Scenario.b_completed) Models.CONFIRMED
  = false
  /\ (let queryset := fun b => Models.booking_id b =? 102 in
      Inputs.get_booking
        (snd (Admin.BookingAdmin.mark_as_confirmed Scenario.db queryset)) 102
      = Some (Admin.set_status Models.CONFIRMED Scenario.b_completed)
      /\ Inputs.get_booking
           (snd (Admin.BookingAdmin.mark_as_cancelled Scenario.db queryset)) 102
         = Some (Admin.set_status Models.CANCELLED Scenario.b_completed)).
Proof.
  split; [reflexivity|].
  apply (C2_admin_actions_overwrite_status Scenario.db
           (fun b => Models.booking_id b =? 102) 102 Scenario.b_completed).
  - reflexivity.
  - reflexivity.
Defined.

(** C2, the counter-example: the booking 101 is Cancelled, from which the
    table has no transition; [mark_as_confirmed] on it reports one booking
    marked and leaves it Confirmed. *)
Lemma C2_counterexample :
  Models.status Scenario.b_cancelled = Models.CANCELLED
  /\ Spec.valid_transition Models.CANCELLED Models.CONFIRMED = false
  /\ (let (message, db') :=
        Admin.BookingAdmin.mark_as_confirmed Scenario.db
          (fun b => Models.booking_id b =? 101) in
      message = "1 booking(s) were successfully marked as confirmed."
      /\ option_map Models.status (Inputs.get_booking db' 101)
         = Some Models.CONFIRMED).
Proof. repeat split. Qed.

(** The same through the API: the guest sends PATCH with [status]
    "confirmed" for the Cancelled booking 101, and it is Confirmed. *)
Example patch_status_of_cancelled_booking :
  let inp := {| Serializers.BookingSerializer.in_listing := None;
                Serializers.BookingSerializer.in_guest := None;
                Serializers.BookingSerializer.in_check_in_date := None;
                Serializers.BookingSerializer.in_check_out_date := None;
                Serializers.BookingSerializer.in_num_guests := None;
                Serializers.BookingSerializer.in_total_price := None;
                Serializers.BookingSerializer.in_status := Some "confirmed";
                Serializers.BookingSerializer.in_special_requests := None |} in
  let (response, db') :=
    Views.BookingViewSet.update Scenario.db true (Some Scenario.guest_user) 101
      inp in
  response = Views.HTTP_200_OK
               (Admin.set_status Models.CONFIRMED Scenario.b_cancelled)
  /\ option_map Models.status (Inputs.get_booking db' 101)
     = Some Models.CONFIRMED.
Proof. vm_compute. split; reflexivity. Qed.

(** ** Writes to a review *)

Section ReviewUpdate.
Import Models Serializers Serializers.ReviewSerializer Permissions Views.

Lemma review_writable_fields :
  w "listing" = true /\ w "reviewer" = false /\ w "rating" = true
  /\ w "comment" = true /\ w "is_active" = false.
Proof. repeat split; reflexivity. Qed.

Lemma rating_field_ok (v : Z) :
  1 <= v <= 5 ->
  (v <- MinValueValidator 1 v ;; v <- MaxValueValidator 5 v ;; validate_rating v)
  = Ok v.
Proof.
  intros H. unfold MinValueValidator, MaxValueValidator, validate_rating.
  zcmp. cbn [bind]. zcmp. cbn [bind]. zcmp. reflexivity.
Qed.

(** A PATCH of the rating and, or not, of the comment. *)
Lemma patch_rating_valid (db : DB) (v : Z) (c : option string) :
  1 <= v <= 5 ->
  Inputs.admitted c ->
  run_validation db true
    {| in_listing := None; in_reviewer := None; in_rating := Some v;
       in_comment := c; in_is_active := None |}
  = Ok {| d_listing := None; d_reviewer := None; d_rating := Some v;
          d_comment := option_map strip c; d_is_active := None |}.
Proof.
  intros H Hc. unfold run_validation, to_internal_value.
  destruct review_writable_fields as (-> & -> & -> & -> & ->).
  cbn [run_field in_listing in_reviewer in_rating in_comment in_is_active
       andb negb].
  rewrite (rating_field_ok v H).
  destruct c as [t|]; [|reflexivity].
  cbn [Inputs.admitted] in Hc. rewrite (CharField_ok t Hc). reflexivity.
Qed.

Lemma not_owner_forbidden (usr : option User) (m : Method) (r : Review) :
  is_safe m = false ->
  usr <> Some (reviewer r) ->
  IsAuthenticatedOrReadOnly.has_permission {| method := m; user := usr |}
  && IsOwnerOrReadOnly.has_object_permission {| method := m; user := usr |}
       (ReviewObj r) = false.
Proof.
  intros Hm Hne.
  unfold IsAuthenticatedOrReadOnly.has_permission,
    IsOwnerOrReadOnly.has_object_permission, is_authenticated, is_user.
  cbn [method user attr_host attr_reviewer]. rewrite Hm.
  destruct usr as [u|]; [|reflexivity].
  simpl. apply Z.eqb_neq. congruence.
Qed.

End ReviewUpdate.

(** C9 (as the code has it): a PUT or PATCH on a review is refused to
    everyone but its reviewer, and is open to the reviewer: the reviewer's
    PATCH with a rating from 1 to 5 replaces the rating, and, when it gives
    a comment without a null character, replaces the comment by that text
    stripped of surrounding whitespace. *)
Theorem C9_review_edit_by_reviewer_only
    (db : Models.DB) (pk : UUID) (r : Models.Review) :
  find (fun r => Models.review_id r =? pk) (Views.ReviewViewSet.queryset db)
  = Some r ->
  (forall usr partial inp,
      usr <> Some (Models.reviewer r) ->
      Views.ReviewViewSet.update db partial usr pk inp
      = (Views.HTTP_403_FORBIDDEN, db))
  /\ (Views.ReviewViewSet.unique_together db r = true ->
      forall v c,
        1 <= v <= 5 ->
        Inputs.admitted c ->
        let r' := {| Models.review_id := Models.review_id r;
                     Models.review_listing := Models.review_listing r;
                     Models.reviewer := Models.reviewer r;
                     Models.rating := v;
                     Models.comment := match c with
                                       | Some c => strip c
                                       | None => Models.comment r
                                       end;
                     Models.review_is_active := Models.review_is_active r |} in
        Views.ReviewViewSet.update db true (Some (Models.reviewer r)) pk
          {| Serializers.ReviewSerializer.in_listing := None;
             Serializers.ReviewSerializer.in_reviewer := None;
             Serializers.ReviewSerializer.in_rating := Some v;
             Serializers.ReviewSerializer.in_comment := c;
             Serializers.ReviewSerializer.in_is_active := None |}
        = (Views.HTTP_200_OK r', Views.save_review db r')).
Proof.
  intros Hfind. split.
  - intros usr partial inp Hne. unfold Views.ReviewViewSet.update.
    assert (Hm : Permissions.is_safe (if partial then Permissions.PATCH
                                      else Permissions.PUT) = false)
      by (destruct partial; reflexivity).
    pose proof (not_owner_forbidden usr _ r Hm Hne) as Hp.
    destruct (Permissions.IsAuthenticatedOrReadOnly.has_permission _);
      [|reflexivity].
    cbn [negb]. rewrite Hfind.
    cbn [andb] in Hp. rewrite Hp. reflexivity.
  - intros Hu v c Hv Hc r'.
    assert (Hp : Permissions.IsAuthenticatedOrReadOnly.has_permission
                   {| Permissions.method := Permissions.PATCH;
                      Permissions.user := Some (Models.reviewer r) |} = true)
      by reflexivity.
    assert (Ho : Permissions.IsOwnerOrReadOnly.has_object_permission
                   {| Permissions.method := Permissions.PATCH;
                      Permissions.user := Some (Models.reviewer r) |}
                   (Permissions.ReviewObj r) = true)
      by (unfold Permissions.IsOwnerOrReadOnly.has_object_permission,
            Permissions.is_user; cbn; apply Z.eqb_refl).
    assert (Hu' : Views.ReviewViewSet.unique_together db r' = true) by exact Hu.
    unfold Views.ReviewViewSet.update.
    rewrite Hp, Hfind, Ho, (patch_rating_valid db v c Hv Hc). cbn [negb].
    assert (Hr' : Serializers.ReviewSerializer.update r
                    {| Serializers.ReviewSerializer.d_listing := None;
                       Serializers.ReviewSerializer.d_reviewer := None;
                       Serializers.ReviewSerializer.d_rating := Some v;
                       Serializers.ReviewSerializer.d_comment :=
                         option_map strip c;
                       Serializers.ReviewSerializer.d_is_active := None |}
                  = r')
      by (destruct c; reflexivity).
    rewrite Hr', Hu'. reflexivity.
Qed.

Lemma C9_witness :
  Views.ReviewViewSet.update Scenario.db true (Some Scenario.other_user) 200
    {| Serializers.ReviewSerializer.in_listing := None;
       Serializers.ReviewSerializer.in_reviewer := None;
       Serializers.ReviewSerializer.in_rating := Some 1;
       Serializers.ReviewSerializer.in_comment := None;
       Serializers.ReviewSerializer.in_is_active := None |}
  = (Views.HTTP_403_FORBIDDEN, Scenario.db)
  /\ fst (Views.ReviewViewSet.update Scenario.db true
            (Some (Models.reviewer Scenario.r1)) 200
            {| Serializers.ReviewSerializer.in_listing := None;
               Serializers.ReviewSerializer.in_reviewer := None;
               Serializers.ReviewSerializer.in_rating := Some 3;
               Serializers.ReviewSerializer.in_comment := Some "  Fine  ";
               Serializers.ReviewSerializer.in_is_active := None |})
     = Views.HTTP_200_OK
         {| Models.review_id := 200; Models.review_listing := 10;
            Models.reviewer := Scenario.guest_user; Models.rating := 3;
            Models.comment := "Fine"; Models.review_is_active := true |}.
Proof.
  destruct (C9_review_edit_by_reviewer_only Scenario.db 200 Scenario.r1 eq_refl)
    as [H1 H2].
  split.
  - apply H1. discriminate.
  - rewrite (H2 eq_refl 3 (Some "  Fine  "));
      [reflexivity | split; discriminate | reflexivity].
Defined.

(** C9, the counter-example: the reviewer of the review 200, rated 5,
    sends PATCH with the rating 1: the answer is 200 and the stored review
    is rated 1. *)
Lemma C9_counterexample :
  Models.reviewer Scenario.r1 = Scenario.guest_user
  /\ Models.rating Scenario.r1 = 5
  /\ (let (response, db') :=
        Views.ReviewViewSet.update Scenario.db true (Some Scenario.guest_user)
          200
          {| Serializers.ReviewSerializer.in_listing := None;
             Serializers.ReviewSerializer.in_reviewer := None;
             Serializers.ReviewSerializer.in_rating := Some 1;
             Serializers.ReviewSerializer.in_comment := Some "Changed my mind";
             Serializers.ReviewSerializer.in_is_active := None |} in
      response = Views.HTTP_200_OK
                   {| Models.review_id := 200; Models.review_listing := 10;
                      Models.reviewer := Scenario.guest_user;
                      Models.rating := 1;
                      Models.comment := "Changed my mind";
                      Models.review_is_active := true |}
      /\ option_map Models.rating (Inputs.get_review db' 200) = Some 1).
Proof. vm_compute. repeat split. Qed.

(** * Further properties of the code *)

(** ** What a created booking satisfies *)

Section CreatedBooking.
Import Models Serializers Serializers.BookingSerializer Views Inputs.

Lemma num_guests_field_Ok (n n' : Z) :
  (v <- MaxValueValidator integer_max_value n ;; v <- MinValueValidator 1 v ;;
   validate_num_guests v) = Ok n' ->
  n' = n /\ 1 <= n.
Proof.
  unfold MaxValueValidator, MinValueValidator, validate_num_guests.
  destruct (n >? integer_max_value); cbn [bind]; [discriminate|].
  destruct (Z.ltb_spec n 1); cbn [bind]; [discriminate|].
  destruct (n <=? 0); [discriminate|]. intros [= <-]. split; [reflexivity|lia].
Qed.

Lemma total_price_field_Ok (p p' : Z) :
  (v <- max_digits_10 p ;; v <- MinValueValidator 0 v ;;
   validate_total_price v) = Ok p' ->
  p' = p /\ 0 < p < 10 ^ 10.
Proof.
  unfold max_digits_10, MinValueValidator, validate_total_price.
  rewrite Z.geb_leb.
  destruct (Z.leb_spec (10 ^ 10) (Z.abs p)); cbn [bind]; [discriminate|].
  destruct (Z.ltb_spec p 0); cbn [bind]; [discriminate|].
  destruct (Z.leb_spec p 0); [discriminate|]. intros [= <-].
  split; [reflexivity|lia].
Qed.

(** What [validate] has checked when it returns. *)
Lemma validate_Ok_rules (data data' : Data) :
  validate data = Ok data' ->
  (forall ci co, d_check_in_date data = Some ci ->
                 d_check_out_date data = Some co -> ci < co)
  /\ (forall l n, d_listing data = Some l -> d_num_guests data = Some n ->
                  n <> 0 -> n <= max_guests l).
Proof.
  unfold validate. intros H. split.
  - intros ci co Hci Hco. rewrite Hci, Hco in H.
    rewrite Z.geb_leb in H.
    destruct (Z.leb_spec co ci); [discriminate | lia].
  - intros l n Hl Hn Hne. rewrite Hl, Hn in H.
    destruct (match d_check_in_date data with
              | Some ci => match d_check_out_date data with
                           | Some co => if ci >=? co
                                        then Err CheckOutNotAfterCheckIn
                                        else Ok tt
                           | None => Ok tt
                           end
              | None => Ok tt
              end); cbn [bind] in H; [|discriminate].
    rewrite Z.gtb_ltb in H.
    destruct (Z.eqb_spec n 0); [contradiction|]. cbn [negb] in H.
    destruct (Z.ltb_spec (max_guests l) n); [discriminate | lia].
Qed.

(** A 201 of [BookingViewSet.create], read backwards. *)
Lemma created_booking_valid (db db' : DB) (usr : option User) (pk : UUID)
    (inp : Input) (b : Booking) :
  BookingViewSet.create db usr pk inp = (HTTP_201_CREATED b, db') ->
  exists l,
    get_listing db (booking_listing b) = Some l
    /\ in_listing inp = Some (booking_listing b)
    /\ usr = Some (guest b)
    /\ booking_id b = pk
    /\ check_in_date b < check_out_date b
    /\ 1 <= num_guests b <= max_guests l
    /\ 0 < total_price b < 10 ^ 10
    /\ fresh db pk
    /\ db' = insert_booking db b.
Proof.
  intros H.
  assert (Hf : fresh db pk).
  { revert H. unfold BookingViewSet.create, fresh.
    destruct (negb _); [discriminate|].
    destruct (run_validation db false inp); [|discriminate].
    destruct usr; [|discriminate].
    destruct (BookingViewSet.perform_create pk u a); [|discriminate].
    destruct (existsb _ _); [discriminate | reflexivity]. }
  apply create_Created in H as (u & data & -> & Hv & Hval & Hc & ->).
  apply to_internal_value_Ok in Hv as (Fl & _ & Fci & Fco & Fn & Fp & _).
  apply run_field_required_Ok in Fl as (pk_l & l & Epk & El & Dl).
  apply run_field_required_Ok in Fci as (ci & ? & Eci & [= <-] & Dci).
  apply run_field_required_Ok in Fco as (co & ? & Eco & [= <-] & Dco).
  apply run_field_required_Ok in Fn as (n & n' & En & Efn & Dn).
  apply run_field_required_Ok in Fp as (p & p' & Ep & Efp & Dp).
  apply num_guests_field_Ok in Efn as [-> Hn].
  apply total_price_field_Ok in Efp as [-> Hp].
  apply validate_Ok_rules in Hval as [Hdates Hcap].
  unfold listing_field in El.
  destruct (get_listing db pk_l) as [l0|] eqn:Hget; [|discriminate].
  injection El as ->.
  assert (Hid : listing_id l = pk_l).
  { unfold get_listing in Hget. apply find_some in Hget as [_ Hq].
    apply Z.eqb_eq. exact Hq. }
  unfold create in Hc. rewrite Dl, Dci, Dco, Dn, Dp in Hc.
  injection Hc as <-. cbn.
  exists l. rewrite Hid.
  repeat split; try assumption; try lia; try reflexivity.
  - apply (Hdates ci co Dci Dco).
  - apply (Hcap l n Dl Dn). lia.
Qed.

End CreatedBooking.

(** X1: a booking is created only for an authenticated user, who becomes
    its guest, on a listing of the database, with check-in before
    check-out, a guest count from 1 to the listing's [max_guests] and a
    positive price; it is added to the table, nothing else is written. *)
Theorem X1_created_booking_is_valid
    (db db' : Models.DB) (usr : option User) (pk : UUID)
    (inp : Serializers.BookingSerializer.Input) (b : Models.Booking) :
  Views.BookingViewSet.create db usr pk inp = (Views.HTTP_201_CREATED b, db') ->
  usr = Some (Models.guest b)
  /\ Models.booking_id b = pk
  /\ (exists l,
        Models.get_listing db (Models.booking_listing b) = Some l
        /\ 1 <= Models.num_guests b <= Models.max_guests l)
  /\ Models.check_in_date b < Models.check_out_date b
  /\ 0 < Models.total_price b
  /\ Models.listings db' = Models.listings db
  /\ Models.reviews db' = Models.reviews db
  /\ Models.bookings db' = (Models.bookings db ++ [b])%list.
Proof.
  intros H.
  apply created_booking_valid in H
    as (l & Hl & _ & Hu & Hpk & Hd & Hn & Hp & _ & ->).
  repeat split; try assumption; try lia.
  exists l. split; assumption.
Qed.

Lemma X1_witness :
  let b := {| Models.booking_id := 110; Models.booking_listing := 10;
              Models.guest := Scenario.other_user;
              Models.check_in_date := ymd 2025 11 1;
              Models.check_out_date := ymd 2025 11 4;
              Models.num_guests := 4; Models.total_price := 45000;
              Models.status := Models.PENDING;
              Models.special_requests := "Late arrival" |} in
  Views.BookingViewSet.create Scenario.db (Some Scenario.other_user) 110
    (Inputs.payload 10 (ymd 2025 11 1) (ymd 2025 11 4) 4 45000 None
       (Some "Late arrival"))
  = (Views.HTTP_201_CREATED b, Views.insert_booking Scenario.db b)
  /\ Models.check_in_date b < Models.check_out_date b
  /\ 0 < Models.total_price b.
Proof.
  intros b.
  assert (H : Views.BookingViewSet.create Scenario.db
                (Some Scenario.other_user) 110
                (Inputs.payload 10 (ymd 2025 11 1) (ymd 2025 11 4) 4 45000 None
                   (Some "Late arrival"))
              = (Views.HTTP_201_CREATED b, Views.insert_booking Scenario.db b))
    by (vm_compute; reflexivity).
  split; [exact H|].
  destruct (X1_created_booking_is_valid _ _ _ _ _ _ H)
    as (_ & _ & _ & Hd & Hp & _).
  split; assumption.
Defined.

(** X2: every booking created through the API passes [Booking.clean]
    against its listing, and its [duration_days] is at least 1. *)
Theorem X2_created_booking_is_clean
    (db db' : Models.DB) (usr : option User) (pk : UUID)
    (inp : Serializers.BookingSerializer.Input) (b : Models.Booking) :
  Views.BookingViewSet.create db usr pk inp = (Views.HTTP_201_CREATED b, db') ->
  1 <= Models.duration_days b
  /\ exists l,
       Models.get_listing db (Models.booking_listing b) = Some l
       /\ Models.clean l b = Ok tt.
Proof.
  intros H.
  apply created_booking_valid in H
    as (l & Hl & _ & _ & _ & Hd & Hn & _).
  split; [unfold Models.duration_days; lia|].
  exists l. split; [exact Hl|].
  unfold Models.clean. zcmp. reflexivity.
Qed.

Lemma X2_witness :
  1 <= Models.duration_days
         (Scenario.booking 111 10 Scenario.guest_user
            (ymd 2025 12 1) (ymd 2025 12 2) 1 Models.PENDING)
  /\ exists l,
       Models.get_listing Scenario.db 10 = Some l
       /\ Models.clean l
            (Scenario.booking 111 10 Scenario.guest_user
               (ymd 2025 12 1) (ymd 2025 12 2) 1 Models.PENDING) = Ok tt.
Proof.
  refine (X2_created_booking_is_clean Scenario.db _ (Some Scenario.guest_user)
            111 (Inputs.payload 10 (ymd 2025 12 1) (ymd 2025 12 2) 1 40000
                   None None)
            (Scenario.booking 111 10 Scenario.guest_user
               (ymd 2025 12 1) (ymd 2025 12 2) 1 Models.PENDING) _).
  vm_compute. reflexivity.
Defined.

(** X3: on a booking with a guest count other than 0, [Booking.clean] and
    [BookingSerializer.validate] enforce the same rules in the same order:
    one accepts when the other does, and one raises the date error when the
    other does. *)
Theorem X3_clean_agrees_with_validate (l : Models.Listing) (b : Models.Booking) :
  Models.num_guests b <> 0 ->
  (Models.clean l b = Ok tt
   <-> Serializers.BookingSerializer.validate (Inputs.data_of l b)
       = Ok (Inputs.data_of l b))
  /\ (Models.clean l b = Err "Check-out date must be after check-in date."
      <-> Serializers.BookingSerializer.validate (Inputs.data_of l b)
          = Err Serializers.CheckOutNotAfterCheckIn).
Proof.
  intros Hn.
  unfold Models.clean, Serializers.BookingSerializer.validate, Inputs.data_of.
  cbn [Serializers.BookingSerializer.d_check_in_date
       Serializers.BookingSerializer.d_check_out_date
       Serializers.BookingSerializer.d_num_guests
       Serializers.BookingSerializer.d_listing].
  rewrite Z.geb_leb, Z.gtb_ltb.
  destruct (Z.eqb_spec (Models.num_guests b) 0) as [E|_]; [contradiction|].
  destruct (Models.check_out_date b <=? Models.check_in_date b);
    destruct (Models.max_guests l <? Models.num_guests b); simpl;
    split; split; intros H; try reflexivity; try discriminate H.
Qed.

Lemma X3_witness :
  (Models.clean Scenario.L Scenario.b1 = Ok tt
   <-> Serializers.BookingSerializer.validate
         (Inputs.data_of Scenario.L Scenario.b1)
       = Ok (Inputs.data_of Scenario.L Scenario.b1))
  /\ (Models.clean Scenario.L Scenario.b1
      = Err "Check-out date must be after check-in date."
      <-> Serializers.BookingSerializer.validate
            (Inputs.data_of Scenario.L Scenario.b1)
          = Err Serializers.CheckOutNotAfterCheckIn).
Proof.
  apply (X3_clean_agrees_with_validate Scenario.L Scenario.b1).
  discriminate.
Defined.

(** ** The range of the average *)

Section AverageRange.
Import Models.

Lemma round_half_even_ge (y : Q) (k : Z) :
  (inject_Z k <= y)%Q -> k <= round_half_even y.
Proof.
  intros H.
  assert (Hf : k <= Qfloor y).
  { rewrite <- (Qfloor_Z k). apply Qfloor_resp_le. exact H. }
  unfold round_half_even.
  destruct (Qcompare _ _); [destruct (Z.even _)| |]; lia.
Qed.

Lemma round_half_even_le (y : Q) (k : Z) :
  (y <= inject_Z k)%Q -> round_half_even y <= k.
Proof.
  intros H.
  assert (Hf : Qfloor y <= k).
  { rewrite <- (Qfloor_Z k). apply Qfloor_resp_le. exact H. }
  unfold round_half_even.
  destruct (Z.eq_dec (Qfloor y) k) as [E|NE].
  - pose proof (Qfloor_le y) as Hlo. rewrite E in *.
    assert (Hc : Qcompare (y - inject_Z k) (1 # 2) = Lt).
    { apply (proj1 (Qlt_alt _ _)). lra. }
    rewrite Hc. lia.
  - destruct (Qcompare _ _); [destruct (Z.even _)| |]; lia.
Qed.

Lemma round2_range (x : Q) : (1 <= x <= 5)%Q -> (1 <= round2 x <= 5)%Q.
Proof.
  intros [Hlo Hhi]. unfold round2.
  assert (H1 : 100 <= round_half_even (x * 100)).
  { apply round_half_even_ge. change (inject_Z 100) with 100%Q. lra. }
  assert (H2 : round_half_even (x * 100) <= 500).
  { apply round_half_even_le. change (inject_Z 500) with 500%Q. lra. }
  set (k := round_half_even (x * 100)) in *.
  assert (E : (inject_Z k / 100 == inject_Z k * (1 # 100))%Q) by reflexivity.
  rewrite E.
  assert (Q1 : (inject_Z 100 <= inject_Z k)%Q) by (rewrite <- Zle_Qle; exact H1).
  assert (Q2 : (inject_Z k <= inject_Z 500)%Q) by (rewrite <- Zle_Qle; exact H2).
  change (inject_Z 100) with 100%Q in Q1.
  change (inject_Z 500) with 500%Q in Q2.
  split; lra.
Qed.

Lemma sum_range (xs : list Z) :
  Forall (fun x => 1 <= x <= 5) xs ->
  Z.of_nat (List.length xs) <= sum xs <= 5 * Z.of_nat (List.length xs).
Proof.
  unfold sum. induction 1 as [|x xs Hx _ IH]; [simpl; lia|].
  cbn [fold_right List.length]. lia.
Qed.

Lemma mean_range (xs : list Z) :
  xs <> [] ->
  Forall (fun x => 1 <= x <= 5) xs ->
  (1 <= inject_Z (sum xs) / inject_Z (Z.of_nat (List.length xs)) <= 5)%Q.
Proof.
  intros Hne Hall.
  pose proof (sum_range xs Hall) as [Hlo Hhi].
  assert (Hpos : 0 < Z.of_nat (List.length xs)).
  { destruct xs; [congruence | simpl; lia]. }
  set (n := Z.of_nat (List.length xs)) in *.
  assert (Qpos : (0 < inject_Z n)%Q).
  { change 0%Q with (inject_Z 0). rewrite <- Zlt_Qlt. exact Hpos. }
  split.
  - apply Qle_shift_div_l; [exact Qpos|].
    rewrite Qmult_1_l. rewrite <- Zle_Qle. exact Hlo.
  - apply Qle_shift_div_r; [exact Qpos|].
    change 5%Q with (inject_Z 5). rewrite <- inject_Z_mult, <- Zle_Qle.
    exact Hhi.
Qed.

End AverageRange.

(** X4: when every stored rating is from 1 to 5, the average rating of a
    listing is 0 with a review count of 0, or from 1 to 5 with a positive
    review count. *)
Theorem X4_average_rating_range (db : Models.DB) (l : Models.Listing) :
  Forall (fun r => 1 <= Models.rating r <= 5) (Models.reviews db) ->
  (Models.review_count db l = 0 /\ Models.average_rating db l = 0%Q)
  \/ (0 < Models.review_count db l
      /\ (1 <= Models.average_rating db l <= 5)%Q).
Proof.
  intros Hall.
  unfold Models.review_count, Models.average_rating.
  set (rs := Models.filter_is_active (Models.listing_reviews db l)).
  assert (Hrs : Forall (fun x => 1 <= x <= 5) (map Models.rating rs)).
  { apply Forall_forall. intros x Hx. apply in_map_iff in Hx as (r & <- & Hr).
    unfold rs, Models.filter_is_active, Models.listing_reviews in Hr.
    apply filter_In in Hr as [Hr _]. apply filter_In in Hr as [Hr _].
    rewrite Forall_forall in Hall. exact (Hall r Hr). }
  destruct rs as [|r rs'] eqn:E.
  - left. split; reflexivity.
  - right. split; [simpl; lia|].
    pose proof (mean_range (map Models.rating (r :: rs')) ltac:(discriminate) Hrs)
      as Hm.
    unfold Models.Avg. cbn [map] in *.
    destruct (Qeq_bool _ 0) eqn:Hz.
    + apply Qeq_bool_iff in Hz. lra.
    + apply round2_range. exact Hm.
Qed.

Lemma X4_witness :
  (Models.review_count Scenario.db Scenario.L = 0
   /\ Models.average_rating Scenario.db Scenario.L = 0%Q)
  \/ (0 < Models.review_count Scenario.db Scenario.L
      /\ (1 <= Models.average_rating Scenario.db Scenario.L <= 5)%Q).
Proof.
  apply (X4_average_rating_range Scenario.db Scenario.L).
  repeat constructor; discriminate.
Defined.

(** X5: a review that is not active, or that is of another listing, does
    not count: with it or without it in the table, the average rating and
    the review count of the listing are the same. *)
Theorem X5_summary_ignores_other_reviews
    (ls : list Models.Listing) (bs : list Models.Booking)
    (rs1 rs2 : list Models.Review) (r : Models.Review) (l : Models.Listing) :
  Models.review_is_active r = false
  \/ Models.review_listing r <> Models.listing_id l ->
  let db := {| Models.listings := ls; Models.reviews := (rs1 ++ rs2)%list;
               Models.bookings := bs |} in
  let db' := {| Models.listings := ls; Models.reviews := (rs1 ++ r :: rs2)%list;
                Models.bookings := bs |} in
  Models.average_rating db' l = Models.average_rating db l
  /\ Models.review_count db' l = Models.review_count db l.
Proof.
  intros Hr db db'.
  assert (E : Models.filter_is_active (Models.listing_reviews db' l)
              = Models.filter_is_active (Models.listing_reviews db l)).
  { unfold Models.filter_is_active, Models.listing_reviews, db, db'.
    cbn [Models.reviews]. rewrite !filter_app. cbn [filter].
    destruct (Models.review_listing r =? Models.listing_id l) eqn:Heq.
    - apply Z.eqb_eq in Heq.
      destruct Hr as [Hr|Hr]; [|contradiction].
      cbn [filter]. rewrite Hr. reflexivity.
    - reflexivity. }
  unfold Models.average_rating, Models.review_count. rewrite E.
  split; reflexivity.
Qed.

Lemma X5_witness :
  let db := {| Models.listings := [Scenario.L];
               Models.reviews := [Scenario.r1; Scenario.r2];
               Models.bookings := [] |} in
  let db' := {| Models.listings := [Scenario.L];
                Models.reviews := [Scenario.r1; Scenario.r4; Scenario.r2];
                Models.bookings := [] |} in
  Models.average_rating db' Scenario.L = Models.average_rating db Scenario.L
  /\ Models.review_count db' Scenario.L = Models.review_count db Scenario.L.
Proof.
  apply (X5_summary_ignores_other_reviews [Scenario.L] [] [Scenario.r1]
           [Scenario.r2] Scenario.r4 Scenario.L).
  left. reflexivity.
Defined.

(** ** Creating and editing a review *)

Section ReviewWrites.
Import Models Serializers Serializers.ReviewSerializer Permissions Views Inputs.

Lemma rating_field_Ok (v v' : Z) :
  (v <- MinValueValidator 1 v ;; v <- MaxValueValidator 5 v ;; validate_rating v)
  = Ok v' ->
  v' = v /\ 1 <= v <= 5.
Proof.
  unfold MinValueValidator, MaxValueValidator, validate_rating.
  destruct (Z.ltb_spec v 1); cbn [bind]; [discriminate|].
  rewrite !Z.gtb_ltb.
  destruct (Z.ltb_spec 5 v); cbn [bind]; [discriminate|].
  destruct (_ || _); [discriminate|]. intros [= <-]. split; [reflexivity|lia].
Qed.

Lemma run_field_Ok {A B} (partial is_required : bool) (raw : option A)
    (run : A -> result ValidationError B) (v : option B) :
  run_field true partial is_required raw run = Ok v ->
  match v with
  | Some b => exists a, raw = Some a /\ run a = Ok b
  | None => raw = None
  end.
Proof.
  unfold run_field. destruct raw as [a|].
  - destruct (run a) as [b|e] eqn:Hr; cbn [bind]; [|discriminate].
    intros [= <-]. exists a. auto.
  - destruct (is_required && negb partial); [discriminate|].
    intros [= <-]. reflexivity.
Qed.

(** What the validated data of a review hold. *)
Lemma review_data (db : DB) (partial : bool) (inp : Input) (data : Data) :
  run_validation db partial inp = Ok data ->
  d_reviewer data = None /\ d_is_active data = None
  /\ match d_comment data with
     | Some c => exists s, in_comment inp = Some s /\ CharField s = Ok c
     | None => in_comment inp = None
     end
  /\ match d_rating data with
     | Some v => in_rating inp = Some v /\ 1 <= v <= 5
     | None => in_rating inp = None
     end
  /\ match d_listing data with
     | Some l => exists pk, in_listing inp = Some pk /\ get_listing db pk = Some l
     | None => in_listing inp = None
     end.
Proof.
  unfold run_validation, to_internal_value.
  destruct review_writable_fields as (-> & -> & -> & -> & ->).
  destruct (run_field true partial true (in_listing inp) _) as [vl|] eqn:Fl;
    destruct (run_field true partial true (in_rating inp) _) as [vr|] eqn:Fr;
    destruct (run_field true partial false (in_comment inp) _) as [vc|] eqn:Fc;
    cbn [run_field error_of app value_of]; try discriminate.
  intros [= <-].
  cbn [d_reviewer d_is_active d_comment d_rating d_listing].
  apply run_field_Ok in Fl, Fr, Fc.
  repeat split.
  - destruct vc as [c|]; [|exact Fc].
    destruct Fc as (a & -> & Hc). exists a. split; [reflexivity | exact Hc].
  - destruct vr as [v|]; [|exact Fr].
    destruct Fr as (a & -> & Hr). apply rating_field_Ok in Hr as [-> Hr].
    split; [reflexivity | exact Hr].
  - destruct vl as [l|]; [|exact Fl].
    destruct Fl as (pk & -> & Hl). exists pk. split; [reflexivity|].
    unfold listing_field in Hl.
    destruct (get_listing db pk); [congruence | discriminate].
Qed.

(** A 200 of [ReviewViewSet.update], read backwards. *)
Lemma review_updated (db db' : DB) (partial : bool) (usr : option User)
    (pk : UUID) (inp : Input) (r' : Review) :
  ReviewViewSet.update db partial usr pk inp = (HTTP_200_OK r', db') ->
  exists r data,
    find (fun r => review_id r =? pk) (ReviewViewSet.queryset db) = Some r
    /\ usr = Some (reviewer r)
    /\ run_validation db partial inp = Ok data
    /\ r' = update r data
    /\ ReviewViewSet.unique_together db r' = true
    /\ db' = save_review db r'.
Proof.
  unfold ReviewViewSet.update.
  destruct (negb (IsAuthenticatedOrReadOnly.has_permission _)); [discriminate|].
  destruct (find _ (ReviewViewSet.queryset db)) as [r|] eqn:Hfind;
    [|discriminate].
  destruct (IsOwnerOrReadOnly.has_object_permission _ _) eqn:Ho;
    cbn [negb]; [|discriminate].
  destruct (run_validation db partial inp) as [data|] eqn:Hv; [|discriminate].
  destruct (ReviewViewSet.unique_together db _) eqn:Hu; [|discriminate].
  intros [= <- <-]. exists r, data.
  repeat split; try assumption; try reflexivity.
  revert Ho. unfold IsOwnerOrReadOnly.has_object_permission, is_user.
  cbn [method user attr_host attr_reviewer].
  assert (Hm : is_safe (if partial then PATCH else PUT) = false)
    by (destruct partial; reflexivity).
  rewrite Hm. destruct usr as [u|]; [|discriminate].
  intros Hq. apply Z.eqb_eq in Hq. congruence.
Qed.

(** A 201 of [ReviewViewSet.create], read backwards. *)
Lemma review_created (db db' : DB) (usr : option User) (pk : UUID)
    (inp : Input) (r : Review) :
  ReviewViewSet.create db usr pk inp = (HTTP_201_CREATED r, db') ->
  exists data,
    run_validation db false inp = Ok data
    /\ usr = Some (reviewer r)
    /\ create pk (reviewer r) data = Some r
    /\ existsb (fun r' => review_id r' =? pk) (reviews db) = false
    /\ ReviewViewSet.unique_together db r = true
    /\ db' = ReviewViewSet.insert_review db r.
Proof.
  unfold ReviewViewSet.create.
  destruct (negb (IsAuthenticatedOrReadOnly.has_permission _)); [discriminate|].
  destruct (run_validation db false inp) as [data|] eqn:Hv; [|discriminate].
  destruct usr as [u|]; [|discriminate].
  unfold ReviewViewSet.perform_create.
  destruct (create pk u data) as [r0|] eqn:Hc; [|discriminate].
  destruct (existsb _ _) eqn:He; [discriminate|].
  destruct (ReviewViewSet.unique_together db r0) eqn:Hu; [|discriminate].
  cbn [orb negb]. intros [= <- <-].
  assert (Hr : reviewer r0 = u).
  { unfold create in Hc. destruct (d_listing data), (d_rating data);
      try discriminate. injection Hc as <-. reflexivity. }
  exists data. rewrite Hr. repeat split; try assumption; reflexivity.
Qed.

Lemma length_save_review (db : DB) (r' : Review) :
  List.length (reviews (save_review db r')) = List.length (reviews db).
Proof. unfold save_review. cbn [reviews]. apply length_map. Qed.

End ReviewWrites.

Section ReviewInvariants.
Import Models Serializers Serializers.ReviewSerializer Permissions Views Inputs.

Lemma review_create_cases (db : DB) (usr : option User) (pk : UUID) (inp : Input) :
  (exists r, ReviewViewSet.create db usr pk inp
             = (HTTP_201_CREATED r, ReviewViewSet.insert_review db r))
  \/ (snd (ReviewViewSet.create db usr pk inp) = db
      /\ forall r, fst (ReviewViewSet.create db usr pk inp) <> HTTP_201_CREATED r).
Proof.
  unfold ReviewViewSet.create.
  destruct (negb _); [right; split; [reflexivity | discriminate]|].
  destruct (run_validation db false inp);
    [|right; split; [reflexivity | discriminate]].
  destruct usr; [|right; split; [reflexivity | discriminate]].
  destruct (ReviewViewSet.perform_create pk u a) as [r|];
    [|right; split; [reflexivity | discriminate]].
  destruct (_ || _); [right; split; [reflexivity | discriminate]|].
  left. exists r. reflexivity.
Qed.

Lemma review_update_cases (db : DB) (partial : bool) (usr : option User)
    (pk : UUID) (inp : Input) :
  (exists r', ReviewViewSet.update db partial usr pk inp
              = (HTTP_200_OK r', save_review db r'))
  \/ (snd (ReviewViewSet.update db partial usr pk inp) = db
      /\ forall r', fst (ReviewViewSet.update db partial usr pk inp)
                    <> HTTP_200_OK r').
Proof.
  unfold ReviewViewSet.update.
  destruct (negb (IsAuthenticatedOrReadOnly.has_permission _));
    [right; split; [reflexivity | discriminate]|].
  destruct (find _ _) as [r|]; [|right; split; [reflexivity | discriminate]].
  destruct (negb (IsOwnerOrReadOnly.has_object_permission _ _));
    [right; split; [reflexivity | discriminate]|].
  destruct (run_validation db partial inp) as [data|];
    [|right; split; [reflexivity | discriminate]].
  destruct (ReviewViewSet.unique_together db _);
    [|right; split; [reflexivity | discriminate]].
  left. eexists. reflexivity.
Qed.

Lemma updated_rating (r : Review) (data : Data) (db : DB) (partial : bool)
    (inp : Input) :
  run_validation db partial inp = Ok data ->
  1 <= rating r <= 5 -> 1 <= rating (update r data) <= 5.
Proof.
  intros Hv Hr. apply review_data in Hv as (_ & _ & _ & Hrat & _).
  unfold update. cbn [rating].
  destruct (d_rating data); [apply Hrat | exact Hr].
Qed.

Lemma created_review (db : DB) (pk : UUID) (u : User) (inp : Input)
    (data : Data) (r : Review) :
  run_validation db false inp = Ok data ->
  create pk u data = Some r ->
  review_id r = pk /\ reviewer r = u /\ review_is_active r = true
  /\ 1 <= rating r <= 5
  /\ (exists l, get_listing db (review_listing r) = Some l)
  /\ in_listing inp = Some (review_listing r)
  /\ in_rating inp = Some (rating r).
Proof.
  intros Hv Hc. apply review_data in Hv as (_ & Hact & _ & Hrat & Hl).
  unfold create in Hc.
  destruct (d_listing data) as [l|]; [|discriminate].
  destruct (d_rating data) as [v|]; [|discriminate].
  rewrite Hact in Hc. injection Hc as <-. cbn.
  destruct Hl as (pk_l & Hin & Hget). destruct Hrat as [Hin' Hv].
  assert (Hid : listing_id l = pk_l).
  { unfold get_listing in Hget. apply find_some in Hget as [_ Hq].
    apply Z.eqb_eq. exact Hq. }
  rewrite Hid. repeat split; try assumption; try lia.
  exists l. exact Hget.
Qed.

Lemma unique_together_In (db : DB) (r r0 : Review) :
  ReviewViewSet.unique_together db r = true ->
  In r0 (reviews db) ->
  review_listing r0 = review_listing r -> reviewer r0 = reviewer r ->
  review_id r0 = review_id r.
Proof.
  unfold ReviewViewSet.unique_together. intros Hu Hin Hl Hr.
  rewrite forallb_forall in Hu. specialize (Hu r0 Hin).
  rewrite Hl, Hr, !Z.eqb_refl in Hu. cbn in Hu.
  rewrite orb_false_r in Hu. apply Z.eqb_eq. exact Hu.
Qed.

Lemma In_save_review (db : DB) (r' x : Review) :
  In x (reviews (save_review db r')) ->
  x = r' \/ (In x (reviews db) /\ review_id x <> review_id r').
Proof.
  unfold save_review. cbn [reviews]. intros H.
  apply in_map_iff in H as (y & Hy & Hin).
  destruct (Z.eqb_spec (review_id y) (review_id r')) as [E|NE].
  - left. congruence.
  - right. subst x. auto.
Qed.

End ReviewInvariants.

(** X6: a PUT or PATCH that answers 200 on a review was sent by its
    reviewer, and keeps the review's id, reviewer and [is_active]; the
    listings and the bookings are untouched and no review is added or
    removed. *)
Theorem X6_review_update_keeps_identity
    (db db' : Models.DB) (partial : bool) (usr : option User) (pk : UUID)
    (inp : Serializers.ReviewSerializer.Input) (r' : Models.Review) :
  Views.ReviewViewSet.update db partial usr pk inp = (Views.HTTP_200_OK r', db') ->
  (exists r,
     find (fun r => Models.review_id r =? pk) (Views.ReviewViewSet.queryset db)
     = Some r
     /\ usr = Some (Models.reviewer r)
     /\ Models.review_id r' = Models.review_id r
     /\ Models.reviewer r' = Models.reviewer r
     /\ Models.review_is_active r' = Models.review_is_active r)
  /\ Models.listings db' = Models.listings db
  /\ Models.bookings db' = Models.bookings db
  /\ List.length (Models.reviews db') = List.length (Models.reviews db).
Proof.
  intros H.
  apply review_updated in H as (r & data & Hfind & Hu & Hv & -> & _ & ->).
  apply review_data in Hv as (Hrev & Hact & _).
  split; [|split; [reflexivity | split; [reflexivity | apply length_save_review]]].
  exists r. unfold Serializers.ReviewSerializer.update.
  cbn [Models.review_id Models.reviewer Models.review_is_active].
  rewrite Hrev, Hact. repeat split; assumption.
Qed.

Lemma X6_witness :
  let r' := Scenario.review 200 10 Scenario.guest_user 2 true in
  Views.ReviewViewSet.update Scenario.db true (Some Scenario.guest_user) 200
    {| Serializers.ReviewSerializer.in_listing := None;
       Serializers.ReviewSerializer.in_reviewer := Some Scenario.other_user;
       Serializers.ReviewSerializer.in_rating := Some 2;
       Serializers.ReviewSerializer.in_comment := None;
       Serializers.ReviewSerializer.in_is_active := Some false |}
  = (Views.HTTP_200_OK r', Views.save_review Scenario.db r')
  /\ Models.reviewer r' = Scenario.guest_user
  /\ Models.review_is_active r' = true.
Proof.
  intros r'.
  assert (H : Views.ReviewViewSet.update Scenario.db true
                (Some Scenario.guest_user) 200
                {| Serializers.ReviewSerializer.in_listing := None;
                   Serializers.ReviewSerializer.in_reviewer :=
                     Some Scenario.other_user;
                   Serializers.ReviewSerializer.in_rating := Some 2;
                   Serializers.ReviewSerializer.in_comment := None;
                   Serializers.ReviewSerializer.in_is_active := Some false |}
              = (Views.HTTP_200_OK r', Views.save_review Scenario.db r'))
    by (vm_compute; reflexivity).
  split; [exact H|].
  destruct (X6_review_update_keeps_identity _ _ _ _ _ _ _ H)
    as ((r & Hf & _ & _ & Hr & Ha) & _).
  injection Hf as <-. split; assumption.
Defined.

(** X7: the reviews API keeps every stored rating from 1 to 5: if they all
    are before a POST, PUT or PATCH of a review, they all are after it,
    whatever the payload and the answer. *)
Theorem X7_ratings_stay_in_range
    (db : Models.DB) (partial : bool) (usr : option User) (pk : UUID)
    (inp : Serializers.ReviewSerializer.Input) :
  Inputs.ratings_in_range db ->
  Inputs.ratings_in_range (snd (Views.ReviewViewSet.create db usr pk inp))
  /\ Inputs.ratings_in_range
       (snd (Views.ReviewViewSet.update db partial usr pk inp)).
Proof.
  intros Hdb. split.
  - destruct (review_create_cases db usr pk inp) as [[r H] | [H _]];
      [|rewrite H; exact Hdb].
    rewrite H. cbn [snd].
    apply review_created in H as (data & Hv & _ & Hc & _).
    apply (created_review db pk _ inp data r Hv) in Hc
      as (_ & _ & _ & Hr & _).
    unfold Inputs.ratings_in_range, Views.ReviewViewSet.insert_review.
    cbn [Models.reviews]. apply Forall_app. split; [exact Hdb|].
    constructor; [exact Hr | constructor].
  - destruct (review_update_cases db partial usr pk inp) as [[r' H] | [H _]];
      [|rewrite H; exact Hdb].
    rewrite H. cbn [snd].
    apply review_updated in H as (r & data & Hfind & _ & Hv & -> & _ & _).
    assert (Hr : 1 <= Models.rating r <= 5).
    { apply find_some in Hfind as [Hin _].
      unfold Views.ReviewViewSet.queryset, Models.filter_is_active in Hin.
      apply filter_In in Hin as [Hin _].
      unfold Inputs.ratings_in_range in Hdb. rewrite Forall_forall in Hdb.
      exact (Hdb r Hin). }
    pose proof (updated_rating r data db partial inp Hv Hr) as Hr'.
    unfold Inputs.ratings_in_range, Views.save_review. cbn [Models.reviews].
    apply Forall_forall. intros x Hx.
    apply in_map_iff in Hx as (y & Hy & Hin).
    unfold Inputs.ratings_in_range in Hdb. rewrite Forall_forall in Hdb.
    destruct (_ =? _); subst x; [exact Hr' | exact (Hdb y Hin)].
Qed.

Lemma X7_witness :
  Inputs.ratings_in_range
    (snd (Views.ReviewViewSet.create Scenario.db (Some Scenario.guest_user) 200
            (Inputs.review_payload 10 3 None)))
  /\ Inputs.ratings_in_range
       (snd (Views.ReviewViewSet.update Scenario.db false
               (Some Scenario.guest_user) 200
               (Inputs.review_payload 10 3 None))).
Proof.
  apply (X7_ratings_stay_in_range Scenario.db false).
  repeat constructor; discriminate.
Defined.

(** X8: one review per reviewer and listing: if no two rows of the table
    share listing and reviewer before a POST, PUT or PATCH of a review,
    none do after it, whatever the payload and the answer. *)
Theorem X8_one_review_per_reviewer_kept
    (db : Models.DB) (partial : bool) (usr : option User) (pk : UUID)
    (inp : Serializers.ReviewSerializer.Input) :
  Inputs.one_review_per_reviewer db ->
  Inputs.one_review_per_reviewer
    (snd (Views.ReviewViewSet.create db usr pk inp))
  /\ Inputs.one_review_per_reviewer
       (snd (Views.ReviewViewSet.update db partial usr pk inp)).
Proof.
  intros Hdb. split.
  - destruct (review_create_cases db usr pk inp) as [[r H] | [H _]];
      [|rewrite H; exact Hdb].
    rewrite H. cbn [snd].
    apply review_created in H as (_ & _ & _ & _ & _ & Hu & _).
    unfold Inputs.one_review_per_reviewer, Views.ReviewViewSet.insert_review.
    cbn [Models.reviews]. intros r1 r2 H1 H2 Hl Hr.
    apply in_app_or in H1 as [H1 | [<- | []]];
      apply in_app_or in H2 as [H2 | [<- | []]].
    + exact (Hdb r1 r2 H1 H2 Hl Hr).
    + exact (unique_together_In db r r1 Hu H1 Hl Hr).
    + symmetry. apply (unique_together_In db r r2 Hu H2); congruence.
    + reflexivity.
  - destruct (review_update_cases db partial usr pk inp) as [[r' H] | [H _]];
      [|rewrite H; exact Hdb].
    rewrite H. cbn [snd].
    apply review_updated in H as (_ & _ & _ & _ & _ & _ & Hu & _).
    intros r1 r2 H1 H2 Hl Hr.
    apply In_save_review in H1 as [-> | [H1 N1]];
      apply In_save_review in H2 as [-> | [H2 N2]].
    + reflexivity.
    + symmetry. apply (unique_together_In db r' r2 Hu H2); congruence.
    + exact (unique_together_In db r' r1 Hu H1 Hl Hr).
    + exact (Hdb r1 r2 H1 H2 Hl Hr).
Qed.

Lemma X8_witness :
  Inputs.one_review_per_reviewer
    (snd (Views.ReviewViewSet.create Scenario.db (Some Scenario.guest_user) 211
            (Inputs.review_payload 10 3 None)))
  /\ Inputs.one_review_per_reviewer
       (snd (Views.ReviewViewSet.update Scenario.db true
               (Some Scenario.guest_user) 211
               (Inputs.review_payload 10 3 None))).
Proof.
  apply (X8_one_review_per_reviewer_kept Scenario.db true).
  intros r1 r2 H1 H2.
  cbn in H1, H2.
  repeat (destruct H1 as [<- | H1]); try contradiction;
    repeat (destruct H2 as [<- | H2]); try contradiction;
    cbn; intros; try reflexivity; discriminate.
Defined.

(** A second review of the listing 10 by the reviewer of the review 200 is
    refused by the database. *)
Example second_review_refused :
  Views.ReviewViewSet.create Scenario.db (Some Scenario.guest_user) 211
    (Inputs.review_payload 10 3 None)
  = (Views.IntegrityError, Scenario.db).
Proof. vm_compute. reflexivity. Qed.

(** X9: a created review has the requesting user as its reviewer, whatever
    reviewer the payload names, is active, is rated from 1 to 5, and is of
    a listing of the database; the review count of that listing grows by 1
    and the review count of every other listing is unchanged. *)
Theorem X9_created_review
    (db db' : Models.DB) (usr : option User) (pk : UUID)
    (inp : Serializers.ReviewSerializer.Input) (r : Models.Review) :
  Views.ReviewViewSet.create db usr pk inp = (Views.HTTP_201_CREATED r, db') ->
  usr = Some (Models.reviewer r)
  /\ Models.review_is_active r = true
  /\ 1 <= Models.rating r <= 5
  /\ (exists l, Models.get_listing db (Models.review_listing r) = Some l)
  /\ forall l,
       Models.review_count db' l
       = Models.review_count db l
         + (if Models.review_listing r =? Models.listing_id l then 1 else 0).
Proof.
  intros H.
  apply review_created in H as (data & Hv & Hu & Hc & _ & _ & ->).
  apply (created_review db pk _ inp data r Hv) in Hc
    as (_ & _ & Hact & Hr & Hl & _).
  repeat split; try assumption; try lia.
  intros l. unfold Models.review_count, Models.filter_is_active,
    Models.listing_reviews, Views.ReviewViewSet.insert_review.
  cbn [Models.reviews]. rewrite !filter_app, !length_app. cbn [filter].
  destruct (Models.review_listing r =? Models.listing_id l).
  - cbn [filter]. rewrite Hact. cbn [List.length]. lia.
  - cbn [filter List.length]. lia.
Qed.

Lemma X9_witness :
  let r := {| Models.review_id := 212; Models.review_listing := 11;
              Models.reviewer := Scenario.other_user; Models.rating := 5;
              Models.comment := "Quiet"; Models.review_is_active := true |} in
  Views.ReviewViewSet.create Scenario.db (Some Scenario.other_user) 212
    {| Serializers.ReviewSerializer.in_listing := Some 11;
       Serializers.ReviewSerializer.in_reviewer := Some Scenario.host_user;
       Serializers.ReviewSerializer.in_rating := Some 5;
       Serializers.ReviewSerializer.in_comment := Some "Quiet";
       Serializers.ReviewSerializer.in_is_active := Some false |}
  = (Views.HTTP_201_CREATED r, Views.ReviewViewSet.insert_review Scenario.db r)
  /\ Models.review_count (Views.ReviewViewSet.insert_review Scenario.db r)
       Scenario.L_inactive
     = Models.review_count Scenario.db Scenario.L_inactive + 1.
Proof.
  intros r.
  assert (H : Views.ReviewViewSet.create Scenario.db (Some Scenario.other_user)
                212
                {| Serializers.ReviewSerializer.in_listing := Some 11;
                   Serializers.ReviewSerializer.in_reviewer :=
                     Some Scenario.host_user;
                   Serializers.ReviewSerializer.in_rating := Some 5;
                   Serializers.ReviewSerializer.in_comment := Some "Quiet";
                   Serializers.ReviewSerializer.in_is_active := Some false |}
              = (Views.HTTP_201_CREATED r,
                 Views.ReviewViewSet.insert_review Scenario.db r))
    by (vm_compute; reflexivity).
  split; [exact H|].
  destruct (X9_created_review _ _ _ _ _ _ H) as (_ & _ & _ & _ & Hc).
  exact (Hc Scenario.L_inactive).
Defined.

(** ** Reading and editing a booking *)

Section BookingAccess.
Import Models Serializers Serializers.BookingSerializer Permissions Views Inputs.

Lemma find_filter {A} (p q : A -> bool) (xs : list A) (x : A) :
  find p xs = Some x -> q x = true -> find p (filter q xs) = Some x.
Proof.
  induction xs as [|y ys IH]; [discriminate|].
  cbn [find filter]. destruct (p y) eqn:Hp.
  - intros [= ->] Hq. rewrite Hq. cbn [find]. rewrite Hp. reflexivity.
  - intros Hf Hq. destruct (q y); [cbn [find]; rewrite Hp|]; auto.
Qed.

Lemma find_filter_Some {A} (p q : A -> bool) (xs : list A) (x : A) :
  find p (filter q xs) = Some x -> In x xs /\ p x = true /\ q x = true.
Proof.
  intros H. apply find_some in H as [Hin Hp].
  apply filter_In in Hin as [Hin Hq]. auto.
Qed.

(** A 200 of [BookingViewSet.update], read backwards. *)
Lemma booking_updated (db db' : DB) (partial : bool) (usr : option User)
    (pk : UUID) (inp : Input) (b' : Booking) :
  BookingViewSet.update db partial usr pk inp = (HTTP_200_OK b', db') ->
  exists b data,
    In b (bookings db) /\ booking_id b = pk
    /\ usr = Some (guest b)
    /\ run_validation db partial inp = Ok data
    /\ b' = update b data
    /\ db' = save_booking db b'.
Proof.
  unfold BookingViewSet.update.
  destruct (negb (_ && _)); [discriminate|].
  destruct (find _ (BookingViewSet.get_queryset db _)) as [b|] eqn:Hfind;
    [|discriminate].
  apply find_filter_Some in Hfind as (Hin & Hid & _).
  destruct (get_listing db (booking_listing b)) as [l|]; [|discriminate].
  destruct (IsBookingGuestOrHost.has_object_permission _ b l) eqn:Ho;
    cbn [negb]; [|discriminate].
  destruct (run_validation db partial inp) as [data|] eqn:Hv; [|discriminate].
  intros [= <- <-]. exists b, data.
  repeat split; try assumption; try reflexivity.
  - apply Z.eqb_eq. exact Hid.
  - revert Ho. unfold IsBookingGuestOrHost.has_object_permission, is_user.
    cbn [method user].
    assert (Hm : is_safe (if partial then PATCH else PUT) = false)
      by (destruct partial; reflexivity).
    rewrite Hm. destruct usr as [u|]; [|discriminate].
    destruct (Z.eqb_spec (guest b) u) as [->|]; [reflexivity|].
    destruct (host l =? u); discriminate.
Qed.

Lemma booking_data_guest (db : DB) (partial : bool) (inp : Input) (data : Data) :
  run_validation db partial inp = Ok data -> d_guest data = None.
Proof.
  unfold run_validation.
  destruct (to_internal_value db partial inp) as [d|] eqn:Hv; [|discriminate].
  cbn [bind]. destruct (validate d) as [d'|] eqn:Hval; [|discriminate].
  intros [= <-]. apply validate_Ok in Hval as ->.
  apply to_internal_value_Ok in Hv as (_ & Hg & _). exact Hg.
Qed.

Lemma booking_create_cases (db : DB) (usr : option User) (pk : UUID) (inp : Input) :
  (exists b, BookingViewSet.create db usr pk inp
             = (HTTP_201_CREATED b, insert_booking db b))
  \/ (snd (BookingViewSet.create db usr pk inp) = db
      /\ forall b, fst (BookingViewSet.create db usr pk inp) <> HTTP_201_CREATED b).
Proof.
  unfold BookingViewSet.create.
  destruct (negb _); [right; split; [reflexivity | discriminate]|].
  destruct (run_validation db false inp);
    [|right; split; [reflexivity | discriminate]].
  destruct usr; [|right; split; [reflexivity | discriminate]].
  destruct (BookingViewSet.perform_create pk u a) as [b|];
    [|right; split; [reflexivity | discriminate]].
  destruct (existsb _ _); [right; split; [reflexivity | discriminate]|].
  left. exists b. reflexivity.
Qed.

Lemma booking_update_cases (db : DB) (partial : bool) (usr : option User)
    (pk : UUID) (inp : Input) :
  (exists b', BookingViewSet.update db partial usr pk inp
              = (HTTP_200_OK b', save_booking db b'))
  \/ (snd (BookingViewSet.update db partial usr pk inp) = db
      /\ forall b', fst (BookingViewSet.update db partial usr pk inp)
                    <> HTTP_200_OK b').
Proof.
  unfold BookingViewSet.update.
  destruct (negb (_ && _)); [right; split; [reflexivity | discriminate]|].
  destruct (find _ _) as [b|]; [|right; split; [reflexivity | discriminate]].
  destruct (negb _); [right; split; [reflexivity | discriminate]|].
  destruct (run_validation db partial inp) as [data|];
    [|right; split; [reflexivity | discriminate]].
  left. eexists. reflexivity.
Qed.

End BookingAccess.

(** X10: the bookings a user is listed are the bookings the user may read:
    a booking of the table is in [get_queryset] exactly when
    [IsBookingGuestOrHost] grants the user a GET on it. *)
Theorem X10_listed_bookings_are_the_readable_ones
    (db : Models.DB) (request : Permissions.Request) (b : Models.Booking)
    (l : Models.Listing) :
  In b (Models.bookings db) ->
  Models.get_listing db (Models.booking_listing b) = Some l ->
  (In b (Views.BookingViewSet.get_queryset db request)
   <-> Permissions.IsBookingGuestOrHost.has_object_permission
         {| Permissions.method := Permissions.GET;
            Permissions.user := Permissions.user request |} b l = true).
Proof.
  intros Hin Hl. unfold Views.BookingViewSet.get_queryset.
  rewrite filter_In, Hl.
  unfold Permissions.IsBookingGuestOrHost.has_object_permission,
    Permissions.is_user.
  cbn [Permissions.user Permissions.method].
  change (Permissions.is_safe Permissions.GET) with true.
  destruct (Permissions.user request) as [u|].
  - destruct (Models.guest b =? u), (Models.host l =? u); cbn; intuition congruence.
  - cbn. intuition congruence.
Qed.

Lemma X10_witness :
  In Scenario.b_completed
    (Views.BookingViewSet.get_queryset Scenario.db
       {| Permissions.method := Permissions.GET;
          Permissions.user := Some Scenario.host_user |})
  <-> Permissions.IsBookingGuestOrHost.has_object_permission
        {| Permissions.method := Permissions.GET;
           Permissions.user := Some Scenario.host_user |}
        Scenario.b_completed Scenario.L = true.
Proof.
  apply (X10_listed_bookings_are_the_readable_ones Scenario.db
           {| Permissions.method := Permissions.GET;
              Permissions.user := Some Scenario.host_user |}
           Scenario.b_completed Scenario.L).
  - right. right. left. reflexivity.
  - reflexivity.
Defined.

(** X11: a PUT or PATCH that answers 200 on a booking was sent by its
    guest; the booking keeps its id and its guest, whatever guest the
    payload names; the listings and the reviews are untouched and no
    booking is added or removed. *)
Theorem X11_booking_update_by_guest_only
    (db db' : Models.DB) (partial : bool) (usr : option User) (pk : UUID)
    (inp : Serializers.BookingSerializer.Input) (b' : Models.Booking) :
  Views.BookingViewSet.update db partial usr pk inp = (Views.HTTP_200_OK b', db') ->
  usr = Some (Models.guest b')
  /\ Models.booking_id b' = pk
  /\ (exists b, In b (Models.bookings db)
                /\ Models.booking_id b = pk
                /\ Models.guest b = Models.guest b')
  /\ Models.listings db' = Models.listings db
  /\ Models.reviews db' = Models.reviews db
  /\ List.length (Models.bookings db') = List.length (Models.bookings db).
Proof.
  intros H.
  apply booking_updated in H as (b & data & Hin & Hid & Hu & Hv & -> & ->).
  apply booking_data_guest in Hv.
  unfold Serializers.BookingSerializer.update.
  cbn [Models.guest Models.booking_id]. rewrite Hv.
  repeat split; try assumption; try reflexivity.
  - exists b. auto.
  - unfold Views.save_booking. cbn [Models.bookings]. apply length_map.
Qed.

Lemma X11_witness :
  let b' := Scenario.booking 100 10 Scenario.guest_user
              (ymd 2025 6 1) (ymd 2025 6 5) 3 Models.PENDING in
  Views.BookingViewSet.update Scenario.db true (Some Scenario.guest_user) 100
    {| Serializers.BookingSerializer.in_listing := None;
       Serializers.BookingSerializer.in_guest := Some Scenario.other_user;
       Serializers.BookingSerializer.in_check_in_date := None;
       Serializers.BookingSerializer.in_check_out_date := None;
       Serializers.BookingSerializer.in_num_guests := Some 3;
       Serializers.BookingSerializer.in_total_price := None;
       Serializers.BookingSerializer.in_status := None;
       Serializers.BookingSerializer.in_special_requests := None |}
  = (Views.HTTP_200_OK b', Views.save_booking Scenario.db b')
  /\ Some Scenario.guest_user = Some (Models.guest b').
Proof.
  intros b'.
  assert (H : Views.BookingViewSet.update Scenario.db true
                (Some Scenario.guest_user) 100
                {| Serializers.BookingSerializer.in_listing := None;
                   Serializers.BookingSerializer.in_guest :=
                     Some Scenario.other_user;
                   Serializers.BookingSerializer.in_check_in_date := None;
                   Serializers.BookingSerializer.in_check_out_date := None;
                   Serializers.BookingSerializer.in_num_guests := Some 3;
                   Serializers.BookingSerializer.in_total_price := None;
                   Serializers.BookingSerializer.in_status := None;
                   Serializers.BookingSerializer.in_special_requests := None |}
              = (Views.HTTP_200_OK b', Views.save_booking Scenario.db b'))
    by (vm_compute; reflexivity).
  split; [exact H|].
  exact (proj1 (X11_booking_update_by_guest_only _ _ _ _ _ _ _ H)).
Defined.

(** X12: the host of the listing, when not the guest of the booking, sees
    the booking but cannot change it: every PUT or PATCH is answered 403
    and writes nothing. *)
Theorem X12_host_cannot_edit_booking
    (db : Models.DB) (partial : bool) (u : User) (pk : UUID)
    (inp : Serializers.BookingSerializer.Input)
    (b : Models.Booking) (l : Models.Listing) :
  Inputs.get_booking db pk = Some b ->
  Models.get_listing db (Models.booking_listing b) = Some l ->
  Models.host l = u ->
  Models.guest b <> u ->
  Views.BookingViewSet.update db partial (Some u) pk inp
  = (Views.HTTP_403_FORBIDDEN, db)
  /\ In b (Views.BookingViewSet.get_queryset db
             {| Permissions.method := Permissions.GET;
                Permissions.user := Some u |}).
Proof.
  intros Hb Hl Hh Hg.
  assert (Hne : (Models.guest b =? u) = false) by (apply Z.eqb_neq; exact Hg).
  assert (Hhe : (Models.host l =? u) = true) by (apply Z.eqb_eq; exact Hh).
  assert (Hvis : forall m,
             (fun b0 =>
                Permissions.is_user (Models.guest b0)
                  {| Permissions.method := m; Permissions.user := Some u |}
                || match Models.get_listing db (Models.booking_listing b0) with
                   | Some l0 =>
                       Permissions.is_user (Models.host l0)
                         {| Permissions.method := m;
                            Permissions.user := Some u |}
                   | None => false
                   end) b = true).
  { intros m. cbn beta. rewrite Hl. unfold Permissions.is_user.
    cbn [Permissions.user]. rewrite Hhe. apply orb_true_r. }
  split.
  - unfold Views.BookingViewSet.update.
    change (negb (Permissions.IsAuthenticated.has_permission _
                  && Permissions.IsBookingGuestOrHost.has_permission _))
      with false. cbn iota.
    unfold Views.BookingViewSet.get_queryset.
    rewrite (find_filter _ _ _ b Hb (Hvis _)). rewrite Hl.
    unfold Permissions.IsBookingGuestOrHost.has_object_permission,
      Permissions.is_user.
    cbn [Permissions.user Permissions.method]. rewrite Hne, Hhe.
    destruct partial; reflexivity.
  - unfold Views.BookingViewSet.get_queryset. apply filter_In. split.
    + unfold Inputs.get_booking in Hb. apply find_some in Hb as [Hin _].
      exact Hin.
    + apply Hvis.
Qed.

Lemma X12_witness :
  Views.BookingViewSet.update Scenario.db true (Some Scenario.host_user) 100
    {| Serializers.BookingSerializer.in_listing := None;
       Serializers.BookingSerializer.in_guest := None;
       Serializers.BookingSerializer.in_check_in_date := None;
       Serializers.BookingSerializer.in_check_out_date := None;
       Serializers.BookingSerializer.in_num_guests := None;
       Serializers.BookingSerializer.in_total_price := None;
       Serializers.BookingSerializer.in_status := Some "confirmed";
       Serializers.BookingSerializer.in_special_requests := None |}
  = (Views.HTTP_403_FORBIDDEN, Scenario.db)
  /\ In Scenario.b1
       (Views.BookingViewSet.get_queryset Scenario.db
          {| Permissions.method := Permissions.GET;
             Permissions.user := Some Scenario.host_user |}).
Proof.
  apply (X12_host_cannot_edit_booking Scenario.db true Scenario.host_user 100
           _ Scenario.b1 Scenario.L).
  - reflexivity.
  - reflexivity.
  - reflexivity.
  - discriminate.
Defined.

(** X13: to a user who is neither the guest of a booking nor the host of
    its listing the booking does not exist: when this holds of every
    booking with the key, a PUT or PATCH is answered 404 and writes
    nothing. *)
Theorem X13_stranger_gets_404
    (db : Models.DB) (partial : bool) (u : User) (pk : UUID)
    (inp : Serializers.BookingSerializer.Input) :
  (forall b, In b (Models.bookings db) -> Models.booking_id b = pk ->
             Models.guest b <> u
             /\ forall l, Models.get_listing db (Models.booking_listing b) = Some l ->
                          Models.host l <> u) ->
  Views.BookingViewSet.update db partial (Some u) pk inp
  = (Views.HTTP_404_NOT_FOUND, db).
Proof.
  intros Hs. unfold Views.BookingViewSet.update.
  change (negb (Permissions.IsAuthenticated.has_permission _
                && Permissions.IsBookingGuestOrHost.has_permission _))
    with false. cbn iota.
  destruct (find _ (Views.BookingViewSet.get_queryset db _)) as [b|] eqn:Hf;
    [|reflexivity].
  exfalso. unfold Views.BookingViewSet.get_queryset in Hf.
  apply find_filter_Some in Hf as (Hin & Hid & Hv).
  apply Z.eqb_eq in Hid. destruct (Hs b Hin Hid) as [Hg Hh].
  unfold Permissions.is_user in Hv. cbn [Permissions.user] in Hv.
  apply orb_true_iff in Hv as [Hv|Hv].
  - apply Z.eqb_eq in Hv. contradiction.
  - destruct (Models.get_listing db (Models.booking_listing b)) as [l|];
      [|discriminate].
    apply Z.eqb_eq in Hv. exact (Hh l eq_refl Hv).
Qed.

Lemma X13_witness :
  Views.BookingViewSet.update Scenario.db true (Some Scenario.other_user) 100
    Inputs.empty_patch
  = (Views.HTTP_404_NOT_FOUND, Scenario.db).
Proof.
  apply (X13_stranger_gets_404 Scenario.db true Scenario.other_user 100).
  intros b Hin Hid. cbn in Hin.
  destruct Hin as [<- | [<- | [<- | []]]]; try discriminate Hid.
  split; [discriminate|]. intros l [= <-]. discriminate.
Defined.

Section PartialUpdate.
Import Models Serializers Serializers.BookingSerializer Permissions Views Inputs.

Lemma guest_finds_booking (db : DB) (m : Method) (pk : UUID) (b : Booking) :
  get_booking db pk = Some b ->
  find (fun b0 => booking_id b0 =? pk)
    (BookingViewSet.get_queryset db {| method := m; user := Some (guest b) |})
  = Some b.
Proof.
  intros Hb. unfold BookingViewSet.get_queryset.
  apply find_filter; [exact Hb|].
  unfold is_user. cbn [user]. rewrite Z.eqb_refl. reflexivity.
Qed.

Lemma guest_update (db : DB) (partial : bool) (pk : UUID) (b : Booking)
    (l : Listing) (inp : Input) (data : Data) :
  get_booking db pk = Some b ->
  get_listing db (booking_listing b) = Some l ->
  run_validation db partial inp = Ok data ->
  BookingViewSet.update db partial (Some (guest b)) pk inp
  = (HTTP_200_OK (update b data), save_booking db (update b data)).
Proof.
  intros Hb Hl Hv. unfold BookingViewSet.update.
  change (negb (IsAuthenticated.has_permission _
                && IsBookingGuestOrHost.has_permission _)) with false.
  cbn iota. rewrite (guest_finds_booking db _ pk b Hb), Hl.
  unfold IsBookingGuestOrHost.has_object_permission, is_user.
  cbn [user]. rewrite Z.eqb_refl. cbn [negb]. rewrite Hv. reflexivity.
Qed.

End PartialUpdate.

(** X14: [validate] checks a rule only when the payload holds both of its
    operands, so a PATCH by the guest that gives the guest count alone is
    stored for every count from 1 to the [max_value] of the field,
    whatever the listing's [max_guests], and one that gives the check-out
    date alone is stored for every date, whatever the booking's check-in
    date. *)
Theorem X14_patch_of_one_field_skips_the_rule
    (db : Models.DB) (pk : UUID) (b : Models.Booking) (l : Models.Listing)
    (n : Z) (d : date) :
  Inputs.get_booking db pk = Some b ->
  Models.get_listing db (Models.booking_listing b) = Some l ->
  1 <= n <= Serializers.integer_max_value ->
  (let b' := {| Models.booking_id := Models.booking_id b;
                Models.booking_listing := Models.booking_listing b;
                Models.guest := Models.guest b;
                Models.check_in_date := Models.check_in_date b;
                Models.check_out_date := Models.check_out_date b;
                Models.num_guests := n;
                Models.total_price := Models.total_price b;
                Models.status := Models.status b;
                Models.special_requests := Models.special_requests b |} in
   Views.BookingViewSet.update db true (Some (Models.guest b)) pk
     {| Serializers.BookingSerializer.in_listing := None;
        Serializers.BookingSerializer.in_guest := None;
        Serializers.BookingSerializer.in_check_in_date := None;
        Serializers.BookingSerializer.in_check_out_date := None;
        Serializers.BookingSerializer.in_num_guests := Some n;
        Serializers.BookingSerializer.in_total_price := None;
        Serializers.BookingSerializer.in_status := None;
        Serializers.BookingSerializer.in_special_requests := None |}
   = (Views.HTTP_200_OK b', Views.save_booking db b'))
  /\ (let b' := {| Models.booking_id := Models.booking_id b;
                   Models.booking_listing := Models.booking_listing b;
                   Models.guest := Models.guest b;
                   Models.check_in_date := Models.check_in_date b;
                   Models.check_out_date := d;
                   Models.num_guests := Models.num_guests b;
                   Models.total_price := Models.total_price b;
                   Models.status := Models.status b;
                   Models.special_requests := Models.special_requests b |} in
      Views.BookingViewSet.update db true (Some (Models.guest b)) pk
        {| Serializers.BookingSerializer.in_listing := None;
           Serializers.BookingSerializer.in_guest := None;
           Serializers.BookingSerializer.in_check_in_date := None;
           Serializers.BookingSerializer.in_check_out_date := Some d;
           Serializers.BookingSerializer.in_num_guests := None;
           Serializers.BookingSerializer.in_total_price := None;
           Serializers.BookingSerializer.in_status := None;
           Serializers.BookingSerializer.in_special_requests := None |}
      = (Views.HTTP_200_OK b', Views.save_booking db b')).
Proof.
  intros Hb Hl Hn. split; intros b'.
  - assert (Hv : Serializers.BookingSerializer.run_validation db true
                   {| Serializers.BookingSerializer.in_listing := None;
                      Serializers.BookingSerializer.in_guest := None;
                      Serializers.BookingSerializer.in_check_in_date := None;
                      Serializers.BookingSerializer.in_check_out_date := None;
                      Serializers.BookingSerializer.in_num_guests := Some n;
                      Serializers.BookingSerializer.in_total_price := None;
                      Serializers.BookingSerializer.in_status := None;
                      Serializers.BookingSerializer.in_special_requests := None |}
                 = Ok {| Serializers.BookingSerializer.d_listing := None;
                         Serializers.BookingSerializer.d_guest := None;
                         Serializers.BookingSerializer.d_check_in_date := None;
                         Serializers.BookingSerializer.d_check_out_date := None;
                         Serializers.BookingSerializer.d_num_guests := Some n;
                         Serializers.BookingSerializer.d_total_price := None;
                         Serializers.BookingSerializer.d_status := None;
                         Serializers.BookingSerializer.d_special_requests := None |}).
    { unfold Serializers.BookingSerializer.run_validation,
        Serializers.BookingSerializer.to_internal_value.
      destruct writable_fields as (-> & -> & -> & -> & -> & -> & -> & ->).
      cbn [Serializers.run_field
           Serializers.BookingSerializer.in_listing
           Serializers.BookingSerializer.in_guest
           Serializers.BookingSerializer.in_check_in_date
           Serializers.BookingSerializer.in_check_out_date
           Serializers.BookingSerializer.in_num_guests
           Serializers.BookingSerializer.in_total_price
           Serializers.BookingSerializer.in_status
           Serializers.BookingSerializer.in_special_requests andb negb].
      rewrite (num_guests_field_ok n Hn). reflexivity. }
    rewrite (guest_update db true pk b l _ _ Hb Hl Hv). reflexivity.
  - assert (Hv : Serializers.BookingSerializer.run_validation db true
                   {| Serializers.BookingSerializer.in_listing := None;
                      Serializers.BookingSerializer.in_guest := None;
                      Serializers.BookingSerializer.in_check_in_date := None;
                      Serializers.BookingSerializer.in_check_out_date := Some d;
                      Serializers.BookingSerializer.in_num_guests := None;
                      Serializers.BookingSerializer.in_total_price := None;
                      Serializers.BookingSerializer.in_status := None;
                      Serializers.BookingSerializer.in_special_requests := None |}
                 = Ok {| Serializers.BookingSerializer.d_listing := None;
                         Serializers.BookingSerializer.d_guest := None;
                         Serializers.BookingSerializer.d_check_in_date := None;
                         Serializers.BookingSerializer.d_check_out_date := Some d;
                         Serializers.BookingSerializer.d_num_guests := None;
                         Serializers.BookingSerializer.d_total_price := None;
                         Serializers.BookingSerializer.d_status := None;
                         Serializers.BookingSerializer.d_special_requests := None |})
      by reflexivity.
    rewrite (guest_update db true pk b l _ _ Hb Hl Hv). reflexivity.
Qed.

Lemma X14_witness :
  Models.max_guests Scenario.L = 4
  /\ fst (Views.BookingViewSet.update Scenario.db true
            (Some Scenario.guest_user) 100
            {| Serializers.BookingSerializer.in_listing := None;
               Serializers.BookingSerializer.in_guest := None;
               Serializers.BookingSerializer.in_check_in_date := None;
               Serializers.BookingSerializer.in_check_out_date := None;
               Serializers.BookingSerializer.in_num_guests := Some 40;
               Serializers.BookingSerializer.in_total_price := None;
               Serializers.BookingSerializer.in_status := None;
               Serializers.BookingSerializer.in_special_requests := None |})
     = Views.HTTP_200_OK
         (Scenario.booking 100 10 Scenario.guest_user
            (ymd 2025 6 1) (ymd 2025 6 5) 40 Models.PENDING)
  /\ fst (Views.BookingViewSet.update Scenario.db true
            (Some Scenario.guest_user) 100
            {| Serializers.BookingSerializer.in_listing := None;
               Serializers.BookingSerializer.in_guest := None;
               Serializers.BookingSerializer.in_check_in_date := None;
               Serializers.BookingSerializer.in_check_out_date :=
                 Some (ymd 2025 5 1);
               Serializers.BookingSerializer.in_num_guests := None;
               Serializers.BookingSerializer.in_total_price := None;
               Serializers.BookingSerializer.in_status := None;
               Serializers.BookingSerializer.in_special_requests := None |})
     = Views.HTTP_200_OK
         (Scenario.booking 100 10 Scenario.guest_user
            (ymd 2025 6 1) (ymd 2025 5 1) 2 Models.PENDING).
Proof.
  split; [reflexivity|].
  destruct (X14_patch_of_one_field_skips_the_rule Scenario.db 100 Scenario.b1
              Scenario.L 40 (ymd 2025 5 1) eq_refl eq_refl)
    as [H1 H2]; [split; discriminate|].
  split.
  - exact (f_equal fst H1).
  - exact (f_equal fst H2).
Defined.

(** X15: a request that is refused writes nothing: after a POST, PUT or
    PATCH of a booking or of a review that is not answered 201 or 200, the
    database is the one before. *)
Theorem X15_refused_request_writes_nothing
    (db : Models.DB) (partial : bool) (usr : option User) (pk : UUID)
    (binp : Serializers.BookingSerializer.Input)
    (rinp : Serializers.ReviewSerializer.Input) :
  ((forall b, fst (Views.BookingViewSet.create db usr pk binp)
              <> Views.HTTP_201_CREATED b) ->
   snd (Views.BookingViewSet.create db usr pk binp) = db)
  /\ ((forall b, fst (Views.BookingViewSet.update db partial usr pk binp)
                 <> Views.HTTP_200_OK b) ->
      snd (Views.BookingViewSet.update db partial usr pk binp) = db)
  /\ ((forall r, fst (Views.ReviewViewSet.create db usr pk rinp)
                 <> Views.HTTP_201_CREATED r) ->
      snd (Views.ReviewViewSet.create db usr pk rinp) = db)
  /\ ((forall r, fst (Views.ReviewViewSet.update db partial usr pk rinp)
                 <> Views.HTTP_200_OK r) ->
      snd (Views.ReviewViewSet.update db partial usr pk rinp) = db).
Proof.
  repeat split; intros H.
  - destruct (booking_create_cases db usr pk binp) as [[b E] | [E _]];
      [|exact E].
    exfalso. apply (H b). rewrite E. reflexivity.
  - destruct (booking_update_cases db partial usr pk binp) as [[b E] | [E _]];
      [|exact E].
    exfalso. apply (H b). rewrite E. reflexivity.
  - destruct (review_create_cases db usr pk rinp) as [[r E] | [E _]];
      [|exact E].
    exfalso. apply (H r). rewrite E. reflexivity.
  - destruct (review_update_cases db partial usr pk rinp) as [[r E] | [E _]];
      [|exact E].
    exfalso. apply (H r). rewrite E. reflexivity.
Qed.

(** ** The admin actions *)

Section AdminActions.
Import Models Admin.

Lemma set_status_set_status (s1 s2 : BookingStatus) (b : Booking) :
  set_status s2 (set_status s1 b) = set_status s2 b.
Proof. reflexivity. Qed.

Lemma update_update (db : DB) (q : Booking -> bool) (s1 s2 : BookingStatus) :
  (forall b s, q (set_status s b) = q b) ->
  snd (update (snd (update db q s1)) q s2) = snd (update db q s2).
Proof.
  intros Hq. unfold update. cbn [snd listings reviews bookings].
  f_equal. rewrite map_map. apply map_ext. intros b.
  destruct (q b) eqn:E.
  - rewrite Hq, E. apply set_status_set_status.
  - rewrite E. reflexivity.
Qed.

Lemma update_nothing (db : DB) (q : Booking -> bool) (s : BookingStatus) :
  (forall b, In b (bookings db) -> q b = false) ->
  update db q s = (0, db).
Proof.
  intros Hq. unfold update. destruct db as [ls rs bs]. cbn [bookings] in *.
  f_equal.
  - assert (E : filter q bs = []).
    { induction bs as [|b bs IH]; [reflexivity|].
      cbn [filter]. rewrite (Hq b (or_introl eq_refl)).
      apply IH. intros b' Hb'. apply Hq. right. exact Hb'. }
    rewrite E. reflexivity.
  - cbn [listings reviews]. f_equal.
    rewrite <- (map_id bs) at 2. apply map_ext_in.
    intros b Hb. rewrite (Hq b Hb). reflexivity.
Qed.

End AdminActions.

(** X16: the admin actions write the status and nothing else: after
    [mark_as_confirmed] or [mark_as_cancelled] the listings and the reviews
    are the same, and the bookings are the same rows in the same order up
    to their status. *)
Theorem X16_admin_actions_write_status_only
    (db : Models.DB) (queryset : Models.Booking -> bool) :
  let same_but_status (db' : Models.DB) :=
    Models.listings db' = Models.listings db
    /\ Models.reviews db' = Models.reviews db
    /\ map (Admin.set_status Models.PENDING) (Models.bookings db')
       = map (Admin.set_status Models.PENDING) (Models.bookings db) in
  same_but_status (snd (Admin.BookingAdmin.mark_as_confirmed db queryset))
  /\ same_but_status (snd (Admin.BookingAdmin.mark_as_cancelled db queryset)).
Proof.
  intros same_but_status. unfold same_but_status.
  rewrite mark_as_confirmed_db, mark_as_cancelled_db.
  unfold Admin.update. cbn [snd Models.listings Models.reviews Models.bookings].
  split; (split; [reflexivity | split; [reflexivity|]]);
    rewrite map_map; apply map_ext; intros b;
    destruct (queryset b); reflexivity.
Qed.

(** X17: on a selection by key, the last admin action wins and an action
    done twice is done once: cancelling after confirming leaves the
    database that cancelling alone leaves. *)
Theorem X17_admin_actions_compose
    (db : Models.DB) (queryset : Models.Booking -> bool) :
  (forall b s, queryset (Admin.set_status s b) = queryset b) ->
  snd (Admin.BookingAdmin.mark_as_cancelled
         (snd (Admin.BookingAdmin.mark_as_confirmed db queryset)) queryset)
  = snd (Admin.BookingAdmin.mark_as_cancelled db queryset)
  /\ snd (Admin.BookingAdmin.mark_as_confirmed
            (snd (Admin.BookingAdmin.mark_as_confirmed db queryset)) queryset)
     = snd (Admin.BookingAdmin.mark_as_confirmed db queryset).
Proof.
  intros Hq.
  rewrite !mark_as_cancelled_db, !mark_as_confirmed_db.
  split; apply update_update; exact Hq.
Qed.

Lemma X17_witness :
  let queryset := fun b => Models.booking_id b =? 100 in
  snd (Admin.BookingAdmin.mark_as_cancelled
         (snd (Admin.BookingAdmin.mark_as_confirmed Scenario.db queryset))
         queryset)
  = snd (Admin.BookingAdmin.mark_as_cancelled Scenario.db queryset)
  /\ snd (Admin.BookingAdmin.mark_as_confirmed
            (snd (Admin.BookingAdmin.mark_as_confirmed Scenario.db queryset))
            queryset)
     = snd (Admin.BookingAdmin.mark_as_confirmed Scenario.db queryset).
Proof.
  intros queryset.
  apply (X17_admin_actions_compose Scenario.db queryset).
  intros b s. reflexivity.
Defined.

(** X18: an admin action on a selection that holds no booking reports 0
    bookings and leaves the database as it is. *)
Theorem X18_admin_action_on_empty_selection
    (db : Models.DB) (queryset : Models.Booking -> bool) :
  (forall b, In b (Models.bookings db) -> queryset b = false) ->
  Admin.BookingAdmin.mark_as_confirmed db queryset
  = ("0 booking(s) were successfully marked as confirmed.", db)
  /\ Admin.BookingAdmin.mark_as_cancelled db queryset
     = ("0 booking(s) were successfully marked as cancelled.", db).
Proof.
  intros Hq.
  unfold Admin.BookingAdmin.mark_as_confirmed,
    Admin.BookingAdmin.mark_as_cancelled.
  rewrite !(update_nothing db queryset _ Hq). split; reflexivity.
Qed.

Lemma X18_witness :
  Admin.BookingAdmin.mark_as_confirmed Scenario.db
    (fun b => Models.booking_id b =? 999)
  = ("0 booking(s) were successfully marked as confirmed.", Scenario.db)
  /\ Admin.BookingAdmin.mark_as_cancelled Scenario.db
       (fun b => Models.booking_id b =? 999)
     = ("0 booking(s) were successfully marked as cancelled.", Scenario.db).
Proof.
  apply (X18_admin_action_on_empty_selection Scenario.db
           (fun b => Models.booking_id b =? 999)).
  intros b Hin. cbn in Hin.
  destruct Hin as [<- | [<- | [<- | []]]]; reflexivity.
Defined.

(** ** The reviews and the bookings of a listing *)

Section ListingViews.
Import Models Permissions Views.

Lemma get_active_listing_Some (db : DB) (pk : UUID) (l : Listing) :
  get_active_listing db pk = Some l ->
  In l (listings db) /\ listing_id l = pk /\ listing_is_active l = true.
Proof.
  unfold get_active_listing. intros H. apply find_some in H as [Hin Hp].
  apply andb_true_iff in Hp as [Hid Ha]. apply Z.eqb_eq in Hid. auto.
Qed.

Lemma get_active_listing_None (db : DB) (pk : UUID) (l : Listing) :
  get_active_listing db pk = None ->
  In l (listings db) -> listing_id l = pk -> listing_is_active l = false.
Proof.
  unfold get_active_listing. intros H Hin Hid.
  pose proof (find_none _ _ H l Hin) as Hp. cbn beta in Hp.
  rewrite Hid, Z.eqb_refl in Hp. exact Hp.
Qed.

End ListingViews.

(** X19: the reviews of a listing are public: [ListingReviewsView.get]
    answers an anonymous user as it answers any user. For an active
    listing with the key it gives the active reviews of that listing and
    no other, as many as the listing's [review_count]; it gives 404 when
    every listing with the key is inactive, or none has it. *)
Theorem X19_listing_reviews_view
    (db : Models.DB) (usr : option User) (pk : UUID) :
  Views.ListingReviewsView.get db usr pk = Views.ListingReviewsView.get db None pk
  /\ match Views.ListingReviewsView.get db usr pk with
     | Views.HTTP_200_OK rs =>
         exists l,
           In l (Models.listings db) /\ Models.listing_id l = pk
           /\ Models.listing_is_active l = true
           /\ Z.of_nat (List.length rs) = Models.review_count db l
           /\ (forall r, In r rs <->
                         In r (Models.reviews db)
                         /\ Models.review_listing r = pk
                         /\ Models.review_is_active r = true)
     | Views.HTTP_404_NOT_FOUND =>
         forall l, In l (Models.listings db) -> Models.listing_id l = pk ->
                   Models.listing_is_active l = false
     | _ => False
     end.
Proof.
  split; [reflexivity|].
  unfold Views.ListingReviewsView.get.
  change (negb (Permissions.IsAuthenticatedOrReadOnly.has_permission _))
    with false. cbn iota.
  destruct (Views.get_active_listing db pk) as [l|] eqn:Hl.
  - apply get_active_listing_Some in Hl as (Hin & Hid & Ha).
    exists l. split; [exact Hin|]. split; [exact Hid|]. split; [exact Ha|].
    split; [reflexivity|].
    intros r. unfold Models.filter_is_active, Models.listing_reviews.
    rewrite !filter_In, Z.eqb_eq, Hid. tauto.
  - intros l. apply get_active_listing_None. exact Hl.
Qed.

(** X20: the bookings of a listing are given to its host alone: a 200 of
    [ListingBookingsView.get] goes to the host of an active listing with
    the key, and holds the bookings of that listing and no other. *)
Theorem X20_listing_bookings_for_host_only
    (db : Models.DB) (usr : option User) (pk : UUID) (bs : list Models.Booking) :
  Views.ListingBookingsView.get db usr pk = Views.HTTP_200_OK bs ->
  (exists l,
     In l (Models.listings db) /\ Models.listing_id l = pk
     /\ Models.listing_is_active l = true
     /\ usr = Some (Models.host l))
  /\ forall b, In b bs <->
               In b (Models.bookings db) /\ Models.booking_listing b = pk.
Proof.
  unfold Views.ListingBookingsView.get.
  destruct (negb (Permissions.IsAuthenticated.has_permission _));
    [discriminate|].
  destruct (Views.get_active_listing db pk) as [l|] eqn:Hl; [|discriminate].
  destruct (Permissions.is_user (Models.host l) _) eqn:Hu; cbn [negb];
    [|discriminate].
  intros [= <-].
  apply get_active_listing_Some in Hl as (Hin & Hid & Ha).
  split.
  - exists l. repeat split; try assumption.
    unfold Permissions.is_user in Hu. cbn [Permissions.user] in Hu.
    destruct usr as [u|]; [|discriminate].
    apply Z.eqb_eq in Hu. congruence.
  - intros b. unfold Views.listing_bookings. rewrite filter_In, Hid.
    rewrite Z.eqb_eq. reflexivity.
Qed.

Lemma X20_witness :
  (exists l,
     In l (Models.listings Scenario.db) /\ Models.listing_id l = 10
     /\ Models.listing_is_active l = true
     /\ Some Scenario.host_user = Some (Models.host l))
  /\ forall b,
       In b [Scenario.b1; Scenario.b_cancelled; Scenario.b_completed] <->
       In b (Models.bookings Scenario.db) /\ Models.booking_listing b = 10.
Proof.
  apply (X20_listing_bookings_for_host_only Scenario.db
           (Some Scenario.host_user) 10).
  reflexivity.
Defined.

(** The guest of the booking 100 is refused the bookings of its listing. *)
Example guest_refused_listing_bookings :
  Views.ListingBookingsView.get Scenario.db (Some Scenario.guest_user) 10
  = Views.HTTP_403_FORBIDDEN.
Proof. reflexivity. Qed.

(** X21: an anonymous user writes nothing and reads no booking: a POST,
    PUT or PATCH of a booking or of a review and a GET of the bookings of
    a listing are answered 403, the database unchanged; no object
    permission lets an anonymous user use an unsafe method. *)
Theorem X21_anonymous_user_is_read_only
    (db : Models.DB) (partial : bool) (pk : UUID)
    (binp : Serializers.BookingSerializer.Input)
    (rinp : Serializers.ReviewSerializer.Input) :
  Views.BookingViewSet.create db None pk binp = (Views.HTTP_403_FORBIDDEN, db)
  /\ Views.BookingViewSet.update db partial None pk binp
     = (Views.HTTP_403_FORBIDDEN, db)
  /\ Views.ReviewViewSet.create db None pk rinp = (Views.HTTP_403_FORBIDDEN, db)
  /\ Views.ReviewViewSet.update db partial None pk rinp
     = (Views.HTTP_403_FORBIDDEN, db)
  /\ Views.ListingBookingsView.get db None pk = Views.HTTP_403_FORBIDDEN
  /\ forall m obj b l,
       Permissions.is_safe m = false ->
       Permissions.IsOwnerOrReadOnly.has_object_permission
         {| Permissions.method := m; Permissions.user := None |} obj = false
       /\ Permissions.IsBookingGuestOrHost.has_object_permission
            {| Permissions.method := m; Permissions.user := None |} b l = false
       /\ Permissions.IsHostOrReadOnly.has_object_permission
            {| Permissions.method := m; Permissions.user := None |} l = false.
Proof.
  split; [reflexivity|].
  split; [unfold Views.BookingViewSet.update; destruct partial; reflexivity|].
  split; [reflexivity|].
  split; [unfold Views.ReviewViewSet.update; destruct partial; reflexivity|].
  split; [reflexivity|].
  intros m obj b l Hm.
  unfold Permissions.IsOwnerOrReadOnly.has_object_permission,
    Permissions.IsBookingGuestOrHost.has_object_permission,
    Permissions.IsHostOrReadOnly.has_object_permission.
  cbn [Permissions.method]. rewrite Hm.
  split; [destruct obj; reflexivity | split; reflexivity].
Qed.

(** ** Which errors a payload can get *)

Section FieldErrors.
Import Models Serializers Serializers.BookingSerializer.

Lemma In_error_of {A} (name f : string) (e : ValidationError)
    (r : result ValidationError A) :
  In (f, e) (error_of name r) -> f = name /\ r = Err e.
Proof.
  destruct r as [a|e']; cbn; [contradiction|].
  intros [[= <- <-] | []]. auto.
Qed.

Lemma run_field_Err {A B} (partial is_required : bool) (raw : option A)
    (run : A -> result ValidationError B) (e : ValidationError) :
  run_field true partial is_required raw run = Err e ->
  (raw = None /\ e = required) \/ (exists a, raw = Some a /\ run a = Err e).
Proof.
  unfold run_field. destruct raw as [a|].
  - destruct (run a) as [b|e'] eqn:Hr; cbn [bind]; [discriminate|].
    intros [= <-]. right. exists a. auto.
  - destruct (is_required && negb partial); [|discriminate].
    intros [= <-]. left. auto.
Qed.

Lemma num_guests_field_Err (n : Z) (e : ValidationError) :
  (v <- MaxValueValidator integer_max_value n ;; v <- MinValueValidator 1 v ;;
   validate_num_guests v) = Err e ->
  e = min_value 1 \/ e = max_value integer_max_value.
Proof.
  unfold MaxValueValidator, MinValueValidator, validate_num_guests.
  destruct (n >? integer_max_value); cbn [bind]; [intros [= <-]; auto|].
  destruct (Z.ltb_spec n 1); cbn [bind]; [intros [= <-]; auto|].
  destruct (Z.leb_spec n 0); [lia | discriminate].
Qed.

Lemma CharField_Err (s : string) (e : ValidationError) :
  CharField s = Err e -> e = null_characters_not_allowed.
Proof.
  unfold CharField. destruct (_ || _); [discriminate|].
  destruct (has_null (strip s)); [congruence | discriminate].
Qed.

Lemma total_price_field_Err (p : Z) :
  (v <- max_digits_10 p ;; v <- MinValueValidator 0 v ;;
   validate_total_price v) = Err TotalPriceNotPositive
  <-> p = 0.
Proof.
  unfold max_digits_10, MinValueValidator, validate_total_price.
  rewrite Z.geb_leb. split.
  - destruct (Z.leb_spec (10 ^ 10) (Z.abs p)); cbn [bind]; [discriminate|].
    destruct (Z.ltb_spec p 0); cbn [bind]; [discriminate|].
    destruct (Z.leb_spec p 0); [lia | discriminate].
  - intros ->. reflexivity.
Qed.

(** The errors of [to_internal_value] are those of its fields. *)
Lemma to_internal_value_Err (db : DB) (partial : bool) (inp : Input)
    (errors : Errors) :
  to_internal_value db partial inp = Err errors ->
  errors
  = (error_of "listing"
       (run_field true partial true (in_listing inp) (listing_field db))
     ++ error_of "check_in_date"
          (run_field true partial true (in_check_in_date inp)
             (@Ok ValidationError date))
     ++ error_of "check_out_date"
          (run_field true partial true (in_check_out_date inp)
             (@Ok ValidationError date))
     ++ error_of "num_guests"
          (run_field true partial true (in_num_guests inp)
             (fun v => v <- MaxValueValidator integer_max_value v ;;
                       v <- MinValueValidator 1 v ;; validate_num_guests v))
     ++ error_of "total_price"
          (run_field true partial true (in_total_price inp)
             (fun v => v <- max_digits_10 v ;; v <- MinValueValidator 0 v ;;
                       validate_total_price v))
     ++ error_of "status"
          (run_field true partial false (in_status inp) status_field)
     ++ error_of "special_requests"
          (run_field true partial false (in_special_requests inp)
             CharField))%list.
Proof.
  unfold to_internal_value.
  destruct writable_fields as (-> & -> & -> & -> & -> & -> & -> & ->).
  change (error_of "guest" (run_field false partial true (in_guest inp) Ok))
    with (@nil (string * ValidationError)).
  cbn [app].
  match goal with
  | |- match ?L with _ => _ end = _ -> _ => destruct L eqn:E
  end; [discriminate|].
  intros [= <-]. reflexivity.
Qed.

Lemma run_validation_Err (db : DB) (partial : bool) (inp : Input)
    (errors : Errors) :
  run_validation db partial inp = Err errors ->
  to_internal_value db partial inp = Err errors
  \/ (exists data e,
        to_internal_value db partial inp = Ok data
        /\ validate data = Err e
        /\ errors = [(non_field_errors, e)]).
Proof.
  unfold run_validation.
  destruct (to_internal_value db partial inp) as [data|errs]; cbn [bind].
  - destruct (validate data) as [d|e] eqn:Hval; [discriminate|].
    intros [= <-]. right. exists data, e. auto.
  - intros [= <-]. left. reflexivity.
Qed.

Lemma validate_Err (data : Data) (e : ValidationError) :
  validate data = Err e ->
  e = CheckOutNotAfterCheckIn \/ exists n m, e = GuestsExceedCapacity n m.
Proof.
  unfold validate.
  destruct (d_check_in_date data) as [ci|], (d_check_out_date data) as [co|];
    try destruct (ci >=? co); cbn [bind];
    try (intros [= <-]; left; reflexivity);
    destruct (d_listing data) as [l|], (d_num_guests data) as [n|];
    try destruct (negb (n =? 0)); try destruct (n >? max_guests l);
    cbn [bind]; try discriminate;
    intros [= <-]; right; eauto.
Qed.

End FieldErrors.

(** X22: the message of [validate_num_guests] is never given: a rejected
    booking payload holds no "must be greater than 0" error of the guest
    count, a count below 1 being refused before by the model's minimum of
    1. The message of [validate_total_price] is given exactly for the
    price 0. *)
Theorem X22_reachable_field_messages
    (db : Models.DB) (partial : bool)
    (inp : Serializers.BookingSerializer.Input) (errors : Serializers.Errors) :
  Serializers.BookingSerializer.run_validation db partial inp = Err errors ->
  (forall f, ~ In (f, Serializers.NumGuestsNotPositive) errors)
  /\ (In ("total_price", Serializers.TotalPriceNotPositive) errors
      <-> Serializers.BookingSerializer.in_total_price inp = Some 0).
Proof.
  intros H. apply run_validation_Err in H as [Hv | (data & e & Hv & Hval & ->)].
  - pose proof (to_internal_value_Err db partial inp errors Hv) as E.
    split.
    + intros f Hin. rewrite E in Hin.
      repeat (apply in_app_or in Hin as [Hin|Hin]);
        apply In_error_of in Hin as [_ Hin];
        apply run_field_Err in Hin as [[_ Hin] | (a & _ & Hin)];
        first
          [ discriminate Hin
          | apply num_guests_field_Err in Hin as [Hin|Hin]; discriminate Hin
          | apply CharField_Err in Hin; discriminate Hin
          | unfold Serializers.listing_field in Hin;
            destruct (Models.get_listing db a); discriminate Hin
          | unfold Serializers.BookingSerializer.status_field in Hin;
            destruct (find _ Models.choices); discriminate Hin
          | revert Hin;
            unfold Serializers.max_digits_10, Serializers.MinValueValidator,
              Serializers.BookingSerializer.validate_total_price;
            destruct (Z.abs a >=? 10 ^ 10); cbn [bind]; [discriminate|];
            destruct (a <? 0); cbn [bind]; [discriminate|];
            destruct (a <=? 0); discriminate ].
    + split.
      * intros Hin. rewrite E in Hin.
        repeat (apply in_app_or in Hin as [Hin|Hin]);
          apply In_error_of in Hin as [Hf Hin]; try discriminate Hf.
        apply run_field_Err in Hin as [[_ Hin] | (a & Ha & Hin)];
          [discriminate|].
        apply total_price_field_Err in Hin. congruence.
      * intros Hp. rewrite E. rewrite Hp.
        do 4 (apply in_or_app; right). apply in_or_app. left.
        left. reflexivity.
  - apply validate_Err in Hval. split.
    + intros f [[= _ ->] | []]. destruct Hval as [Hval | (n & m & Hval)];
        discriminate.
    + split.
      * intros [Hc | []]. discriminate Hc.
      * intros Hp. exfalso.
        apply to_internal_value_Ok in Hv as (_ & _ & _ & _ & _ & Fp & _).
        rewrite Hp in Fp. discriminate Fp.
Qed.

Lemma X22_witness :
  (forall f,
      ~ In (f, Serializers.NumGuestsNotPositive)
          [("num_guests", Serializers.min_value 1);
           ("total_price", Serializers.TotalPriceNotPositive)])
  /\ (In ("total_price", Serializers.TotalPriceNotPositive)
        [("num_guests", Serializers.min_value 1);
         ("total_price", Serializers.TotalPriceNotPositive)]
      <-> Serializers.BookingSerializer.in_total_price
            (Inputs.payload 10 (ymd 2025 6 10) (ymd 2025 6 12) 0 0 None None)
          = Some 0).
Proof.
  apply (X22_reachable_field_messages Scenario.db false
           (Inputs.payload 10 (ymd 2025 6 10) (ymd 2025 6 12) 0 0 None None)).
  vm_compute. reflexivity.
Defined.
